(** * Borrowing lifecycle and penalty engine of the library back end

    A shallow embedding of the loan workflow of [backend_routes.py]
    ([create_borrowing], [return_book], [pay_penalty]) and of the helpers of
    [backend_utils.py] ([can_borrow_book], the penalty calculators), with the
    relational store as finite maps keyed by primary key and the request
    handlers as programs of a small state-and-exception monad. *)

From Stdlib Require Import ZArith Lia Floats Ascii.
From stdpp Require Import base option gmap strings pretty fin_maps list.

Local Open Scope Z_scope.

(* ===================================================================== *)
(** ** Data model: the rows of the four tables                            *)
(* ===================================================================== *)

(** The records below keep, of each table, the columns the handlers read
    or write; titles, names and the like play no part in the workflow. *)

(** Modelled from the spec: the values of the [status] column of a
    Borrowing, whose declaration in [models.py] is missing; the data model
    gives borrowed, late and returned. *)
Inductive BorrowingStatus := borrowed | late | returned.

(** Modelled from the spec: the values of the [status] column of a
    Penalty, whose declaration in [models.py] is missing; the data model
    gives unpaid, paid and waived. *)
Inductive PenaltyStatus := unpaid | paid | waived.

(** Modelled from the spec: the default of [Borrowing.status], declared in
    the missing [models.py]; a loan is created in state borrowed (and
    [test_create_borrowing] reads that status back). *)
Definition default_borrowing_status : BorrowingStatus := borrowed.

(** Modelled from the spec: the default of [Penalty.status], declared in
    the missing [models.py]; a penalty is created unpaid. *)
Definition default_penalty_status : PenaltyStatus := unpaid.

#[global] Instance BorrowingStatus_eq_dec : EqDecision BorrowingStatus.
Proof. solve_decision. Defined.
#[global] Instance PenaltyStatus_eq_dec : EqDecision PenaltyStatus.
Proof. solve_decision. Defined.

(** Dates are proleptic Gregorian ordinals, as [date.toordinal] counts them;
    [(a - b).days] is then the difference of the ordinals. *)
Definition date := Z.

Module Book.
Record t := mk {
  total_copies : Z;
  available_copies : Z;
  is_active : bool
}.
Definition set_available_copies (v : Z) (b : t) : t :=
  mk (total_copies b) v (is_active b).
Definition set_total_copies (v : Z) (b : t) : t :=
  mk v (available_copies b) (is_active b).
End Book.

Module Member.
Record t := mk {
  is_active : bool;
  current_borrowed : Z;
  total_borrowed : Z
}.
Definition set_current_borrowed (v : Z) (m : t) : t :=
  mk (is_active m) v (total_borrowed m).
Definition set_total_borrowed (v : Z) (m : t) : t :=
  mk (is_active m) (current_borrowed m) v.
End Member.

Module Borrowing.
Record t := mk {
  member_id : string;
  book_id : string;
  librarian_id : option string;
  due_date : date;
  return_date : option date;
  status : BorrowingStatus;
  notes : option string
}.
Definition set_status (v : BorrowingStatus) (b : t) : t :=
  mk (member_id b) (book_id b) (librarian_id b) (due_date b)
     (return_date b) v (notes b).
Definition set_return_date (v : option date) (b : t) : t :=
  mk (member_id b) (book_id b) (librarian_id b) (due_date b)
     v (status b) (notes b).
Definition set_notes (v : option string) (b : t) : t :=
  mk (member_id b) (book_id b) (librarian_id b) (due_date b)
     (return_date b) (status b) v.
End Borrowing.

(** Amounts are whole numbers of so'm. *)
Module Penalty.
Record t := mk {
  member_id : string;
  borrow_id : option string;
  amount : Z;
  reason : string;
  status : PenaltyStatus;
  paid_date : option date;
  paid_amount : option Z;
  notes : option string
}.
Definition set_status (v : PenaltyStatus) (p : t) : t :=
  mk (member_id p) (borrow_id p) (amount p) (reason p) v
     (paid_date p) (paid_amount p) (notes p).
Definition set_paid_date (v : option date) (p : t) : t :=
  mk (member_id p) (borrow_id p) (amount p) (reason p) (status p)
     v (paid_amount p) (notes p).
Definition set_paid_amount (v : option Z) (p : t) : t :=
  mk (member_id p) (borrow_id p) (amount p) (reason p) (status p)
     (paid_date p) v (notes p).
Definition set_notes (v : option string) (p : t) : t :=
  mk (member_id p) (borrow_id p) (amount p) (reason p) (status p)
     (paid_date p) (paid_amount p) v.
End Penalty.

(** The store seen through one session: each table maps a primary key to
    its row. *)
Record DB := mkDB {
  books : gmap string Book.t;
  members : gmap string Member.t;
  borrowings : gmap string Borrowing.t;
  penalties : gmap string Penalty.t
}.

Definition with_books (f : gmap string Book.t → gmap string Book.t) (db : DB) : DB :=
  mkDB (f (books db)) (members db) (borrowings db) (penalties db).
Definition with_members (f : gmap string Member.t → gmap string Member.t) (db : DB) : DB :=
  mkDB (books db) (f (members db)) (borrowings db) (penalties db).
Definition with_borrowings (f : gmap string Borrowing.t → gmap string Borrowing.t) (db : DB) : DB :=
  mkDB (books db) (members db) (f (borrowings db)) (penalties db).
Definition with_penalties (f : gmap string Penalty.t → gmap string Penalty.t) (db : DB) : DB :=
  mkDB (books db) (members db) (borrowings db) (f (penalties db)).

(* ===================================================================== *)
(** ** The session monad: state passing with exceptions                   *)
(* ===================================================================== *)

(** [HTTPException] is what the handlers raise themselves; the two other
    exceptions are the ones the interpreter raises under them: attribute
    access on [None], and date arithmetic out of range. *)
Inductive exn :=
  | HTTPException (status_code : Z) (detail : string)
  | AttributeError
  | OverflowError.

Module Session.
(** A handler run from a session state gives a value or an exception,
    and the session state as it is at that point. *)
Definition M (A : Type) : Type := DB → (exn + A) * DB.

Definition ret {A} (a : A) : M A := λ db, (inr a, db).
Definition raise {A} (e : exn) : M A := λ db, (inl e, db).
Definition bind {A B} (m : M A) (k : A → M B) : M B := λ db,
  match m db with
  | (inl e, db') => (inl e, db')
  | (inr a, db') => k a db'
  end.

(** [db.query(T).filter(T.pk == key).first()] *)
Definition query_first {A} (table : DB → gmap string A) (key : string) : M (option A) :=
  λ db, (inr (table db !! key), db).
(** any other read-only query *)
Definition query {A} (q : DB → A) : M A := λ db, (inr (q db), db).
(** attribute assignment on a loaded row, and [db.add] of a new one *)
Definition update (f : DB → DB) : M unit := λ db, (inr (), f db).
(** an interpreter-level partial operation *)
Definition lift {A} (e : exn) (o : option A) : M A :=
  match o with Some a => ret a | None => raise e end.

(** One request: the handler's changes reach the store when it returns
    (its last statement before returning is [db.commit()]); when it
    raises, the session is closed without a commit, as the [finally] of
    [override_get_db] in backend_tests.py does. *)
Definition request {A} (m : M A) (db : DB) : (exn + A) * DB :=
  match m db with
  | (inr a, db') => (inr a, db')
  | (inl e, _) => (inl e, db)
  end.
End Session.

Import Session.

Declare Scope session_scope.
Delimit Scope session_scope with session.
Notation "x <- m ;; k" := (bind m (λ x, k))
  (at level 100, m at next level, k at level 200, right associativity) : session_scope.
Notation "m ;; k" := (bind m (λ _, k))
  (at level 100, k at level 200, right associativity) : session_scope.

(** Python truthiness of the optional request fields, and [a or b]. *)
Definition truthy_str (o : option string) : bool :=
  match o with
  | Some EmptyString | None => false
  | Some (String _ _) => true
  end.
Definition or_Z (a : option Z) (b : Z) : Z :=
  match a with
  | Some v => if v =? 0 then b else v
  | None => b
  end.

(** [datetime] arithmetic: a [timedelta] holds at most 999999999 days in
    magnitude, a [date] lies between ordinal 1 and ordinal 3652059
    (9999-12-31); outside, [OverflowError]. *)
Definition timedelta (days : Z) : option Z :=
  if Z.abs days <=? 999999999 then Some days else None.
Definition date_add (d : date) (delta : Z) : option date :=
  if (1 <=? d + delta) && (d + delta <=? 3652059) then Some (d + delta) else None.

(* ===================================================================== *)
(** ** Python floats: binary64, and the ints mixed into them              *)
(* ===================================================================== *)

Module PyFloat.

(** [float(n)] for an int [n], as [x + n] and [x += n] convert the int
    operand of a float: the nearest binary64, ties to even, and
    [OverflowError] when the rounded value is out of range. *)
Definition int_to_float (n : Z) : option float :=
  match binary_normalize prec emax n 0 false with
  | S754_infinity _ => None
  | sf => Some (SF2Prim sf)
  end.

(** [x + n] for a float [x] and an int [n]. *)
Definition add_int (x : float) (n : Z) : exn + float :=
  match int_to_float n with
  | Some y => inr (x + y)%float
  | None => inl OverflowError
  end.

(** Sequencing of statements that may raise. *)
Definition and_then {A B} (r : exn + A) (k : A → exn + B) : exn + B :=
  match r with
  | inl e => inl e
  | inr a => k a
  end.

(** The integer a float is equal to, when it is finite and whole. *)
Definition float_value (f : float) : option Z :=
  match Prim2SF f with
  | S754_zero _ => Some 0
  | S754_finite s m e =>
    if 0 <=? e then Some (cond_Zopp s (Z.pos m * 2 ^ e))
    else if Z.pos m mod 2 ^ (- e) =? 0
         then Some (cond_Zopp s (Z.pos m / 2 ^ (- e)))
         else None
  | _ => None
  end.

(** A natural number that a binary64 float holds without rounding: at
    most 53 significant bits, times a power of two within range. *)
Definition representable (n : Z) : Prop :=
  ∃ m k, n = m * 2 ^ k ∧ 0 <= m < 2 ^ 53 ∧ 0 <= k <= 971.

(** [sf] is the binary64 number equal to the natural number [n]: zero, or
    a 53-digit mantissa [m] at exponent [t] with [m * 2^t = n]. *)
Definition sf_holds (sf : spec_float) (n : Z) : Prop :=
  (n = 0 ∧ sf = S754_zero false)
  ∨ ∃ m t, sf = S754_finite false m t
           ∧ Z.pos (digits2_pos m) = 53 ∧ -1074 <= t <= 971
           ∧ n * 2 ^ 1074 = Z.pos m * 2 ^ (t + 1074).

Definition float_holds (f : float) (n : Z) : Prop := sf_holds (Prim2SF f) n.

End PyFloat.

(* ===================================================================== *)
(** ** backend_utils.py                                                   *)
(* ===================================================================== *)

Module Utils.
Import PyFloat.

Definition calculate_late_penalty (days_late : Z) (rate_per_day : Z) : Z :=
  days_late * rate_per_day.

(** The accumulator [penalty] is a float from its first value [0.0] on;
    the day counts and the products [days * rate] are ints, converted
    when they are added to it. *)
Definition calculate_progressive_penalty (days_late : Z) : exn + float :=
  let penalty := 0%float in
  let remaining_days := days_late in
  (* days 1-7 *)
  and_then (if 0 <? remaining_days then
              let days := Z.min remaining_days 7 in
              and_then (add_int penalty (days * 3000)) (λ penalty,
              inr (penalty, remaining_days - days))
            else inr (penalty, remaining_days)) (λ '(penalty, remaining_days),
  (* days 8-14 *)
  and_then (if 0 <? remaining_days then
              let days := Z.min remaining_days 7 in
              and_then (add_int penalty (days * 5000)) (λ penalty,
              inr (penalty, remaining_days - days))
            else inr (penalty, remaining_days)) (λ '(penalty, remaining_days),
  (* days 15-30 *)
  and_then (if 0 <? remaining_days then
              let days := Z.min remaining_days 16 in
              and_then (add_int penalty (days * 7000)) (λ penalty,
              inr (penalty, remaining_days - days))
            else inr (penalty, remaining_days)) (λ '(penalty, remaining_days),
  (* beyond day 30 *)
  and_then (if 0 <? remaining_days then add_int penalty (remaining_days * 10000)
            else inr penalty) (λ penalty,
  inr penalty)))).

End Utils.

(** The eligibility helper of [backend_utils.py], below the calculators. *)
Module Eligibility.

(** [Penalty.member_id == member_id, Penalty.status == 'unpaid'] *)
Definition unpaid_of (member_id : string) (kp : string * Penalty.t) : Prop :=
  Penalty.member_id kp.2 = member_id ∧ Penalty.status kp.2 = unpaid.

#[global] Instance unpaid_of_dec member_id kp : Decision (unpaid_of member_id kp).
Proof. unfold unpaid_of. apply _. Defined.

(** [db.query(Penalty).filter(...).count()] *)
Definition count_unpaid (member_id : string) (db : DB) : Z :=
  Z.of_nat (size (filter (unpaid_of member_id) (penalties db))).

Definition can_borrow_book (member_id book_id : string) : M (bool * option string) :=
  (member <- query_first members member_id ;;
   match member with
   | None => ret (false, Some "A'zo topilmadi")
   | Some member =>
     if negb (Member.is_active member) then ret (false, Some "A'zo faol emas")
     else
       book <- query_first books book_id ;;
       match book with
       | None => ret (false, Some "Kitob topilmadi")
       | Some book =>
         if negb (Book.is_active book) then ret (false, Some "Kitob faol emas")
         else if Book.available_copies book <=? 0
         then ret (false, Some "Kitob mavjud emas")
         else
           unpaid_penalties <- query (count_unpaid member_id) ;;
           if 0 <? unpaid_penalties
           then ret (false,
                     Some ("A'zoning " +:+ pretty unpaid_penalties
                           +:+ " ta to'lanmagan jarimasi bor"))
           else
             let MAX_CONCURRENT_BOOKS := 5 in
             if MAX_CONCURRENT_BOOKS <=? Member.current_borrowed member
             then ret (false,
                       Some ("A'zo maksimal " +:+ pretty MAX_CONCURRENT_BOOKS
                             +:+ " ta kitobgacha ola oladi"))
             else ret (true, None)
       end
   end)%session.

End Eligibility.

(* ===================================================================== *)
(** ** backend_routes.py                                                  *)
(* ===================================================================== *)

(** The request bodies, by the fields the handlers read. *)
Module BorrowingCreate.
Record t := mk {
  member_id : string;
  book_id : string;
  days : Z;
  notes : option string
}.
End BorrowingCreate.

Module BorrowingReturn.
Record t := mk { notes : option string }.
End BorrowingReturn.

Module PenaltyUpdate.
Record t := mk { paid_amount : option Z; notes : option string }.
End PenaltyUpdate.

(** Of the fields of a book update, the one [update_book] computes with;
    [None] is a field the request leaves unset. *)
Module BookUpdate.
Record t := mk { total_copies : option Z }.
End BookUpdate.

Module Routes.
Import Eligibility.

(** [db.query(func.sum(Penalty.amount)).filter(...).scalar()]: SQL's sum
    over no row is NULL. *)
Definition sum_amount (rows : gmap string Penalty.t) : option Z :=
  if bool_decide (size rows = 0%nat) then None
  else Some (map_fold (λ _ p acc, acc + Penalty.amount p) 0 rows).

Definition sum_unpaid (member_id : string) (db : DB) : option Z :=
  sum_amount (filter (unpaid_of member_id) (penalties db)).

(** The book object after the assignments of [update_book]. *)
Definition updated_book (book : BookUpdate.t) (db_book : Book.t) : Book.t :=
  match BookUpdate.total_copies book with
  | Some new_total =>
    let old_total := Book.total_copies db_book in
    let difference := new_total - old_total in
    let db_book :=
      Book.set_available_copies
        (Z.max 0 (Book.available_copies db_book + difference)) db_book in
    Book.set_total_copies new_total db_book
  | None => db_book
  end.

Definition update_book (book_id : string) (book : BookUpdate.t) : M Book.t :=
  (db_book <- query_first books book_id ;;
   match db_book with
   | None => raise (HTTPException 404 "Kitob topilmadi")
   | Some db_book =>
     update (with_books (alter (updated_book book) book_id)) ;;
     ret (updated_book book db_book)
   end)%session.

(** [today] is [date.today()]; [new_id] is the primary key the store
    gives the added row; [librarian_id] is [current_user.librarian_id]. *)
Definition create_borrowing (today : date) (new_id : string)
    (librarian_id : string) (borrowing : BorrowingCreate.t) : M Borrowing.t :=
  (book <- query_first books (BorrowingCreate.book_id borrowing) ;;
   match book with
   | None => raise (HTTPException 404 "Kitob topilmadi")
   | Some book =>
     if Book.available_copies book <=? 0
     then raise (HTTPException 400 "Bu kitobning mavjud nusxalari yo'q")
     else
       member <- query_first members (BorrowingCreate.member_id borrowing) ;;
       match member with
       | None => raise (HTTPException 404 "A'zo topilmadi")
       | Some member =>
         if negb (Member.is_active member)
         then raise (HTTPException 400 "Bu a'zo faol emas")
         else
           unpaid_penalties <-
             query (λ db, or_Z (sum_unpaid (BorrowingCreate.member_id borrowing) db) 0) ;;
           if 0 <? unpaid_penalties
           then raise (HTTPException 400
                         ("A'zoning " +:+ pretty unpaid_penalties
                          +:+ " so'm to'lanmagan jarimasi bor"))
           else
             delta <- lift OverflowError (timedelta (BorrowingCreate.days borrowing)) ;;
             due_date <- lift OverflowError (date_add today delta) ;;
             let db_borrowing :=
               Borrowing.mk (BorrowingCreate.member_id borrowing)
                            (BorrowingCreate.book_id borrowing)
                            (Some librarian_id) due_date None
                            default_borrowing_status
                            (BorrowingCreate.notes borrowing) in
             update (with_borrowings (insert new_id db_borrowing)) ;;
             update (with_books
               (alter (λ b, Book.set_available_copies (Book.available_copies b - 1) b)
                      (BorrowingCreate.book_id borrowing))) ;;
             update (with_members
               (alter (λ m, Member.set_current_borrowed (Member.current_borrowed m + 1) m)
                      (BorrowingCreate.member_id borrowing))) ;;
             update (with_members
               (alter (λ m, Member.set_total_borrowed (Member.total_borrowed m + 1) m)
                      (BorrowingCreate.member_id borrowing))) ;;
             ret db_borrowing
       end
   end)%session.

(** The loan object after the three assignments of [return_book]. *)
Definition returned_loan (today : date) (notes : option string)
    (b : Borrowing.t) : Borrowing.t :=
  let b := Borrowing.set_status returned b in
  let b := Borrowing.set_return_date (Some today) b in
  if truthy_str notes then Borrowing.set_notes notes b else b.

Definition late_reason (days_late : Z) : string :=
  "Kitobni muddatidan " +:+ pretty days_late
  +:+ " kun kechiktirib qaytarganlik uchun jarima".

(** [new_id] is the primary key given to the penalty row, if one is
    added. *)
Definition return_book (today : date) (new_id : string)
    (borrow_id : string) (return_data : BorrowingReturn.t) : M Borrowing.t :=
  (borrowing <- query_first borrowings borrow_id ;;
   match borrowing with
   | None => raise (HTTPException 404 "Ijara topilmadi")
   | Some borrowing =>
     if bool_decide (Borrowing.status borrowing = returned)
     then raise (HTTPException 400 "Bu kitob allaqachon qaytarilgan")
     else
       let is_late := Borrowing.due_date borrowing <? today in
       let days_late := if is_late then today - Borrowing.due_date borrowing else 0 in
       update (with_borrowings
         (alter (returned_loan today (BorrowingReturn.notes return_data)) borrow_id)) ;;
       book <- query_first books (Borrowing.book_id borrowing) ;;
       member <- query_first members (Borrowing.member_id borrowing) ;;
       match book with
       | None => raise AttributeError
       | Some _ =>
         update (with_books
           (alter (λ b, Book.set_available_copies (Book.available_copies b + 1) b)
                  (Borrowing.book_id borrowing)))
       end ;;
       match member with
       | None => raise AttributeError
       | Some _ =>
         update (with_members
           (alter (λ m, Member.set_current_borrowed (Member.current_borrowed m - 1) m)
                  (Borrowing.member_id borrowing)))
       end ;;
       (if is_late then
          let penalty_amount := days_late * 5000 in
          let penalty :=
            Penalty.mk (Borrowing.member_id borrowing) (Some borrow_id)
                       penalty_amount (late_reason days_late)
                       default_penalty_status None None None in
          update (with_penalties (insert new_id penalty))
        else ret ()) ;;
       ret (returned_loan today (BorrowingReturn.notes return_data) borrowing)
   end)%session.

(** The penalty object after the assignments of [pay_penalty]. *)
Definition paid_penalty (today : date) (payment : PenaltyUpdate.t)
    (p : Penalty.t) : Penalty.t :=
  let amount_paid := or_Z (PenaltyUpdate.paid_amount payment) (Penalty.amount p) in
  let p := Penalty.set_status paid p in
  let p := Penalty.set_paid_date (Some today) p in
  let p := Penalty.set_paid_amount (Some amount_paid) p in
  if truthy_str (PenaltyUpdate.notes payment)
  then Penalty.set_notes (PenaltyUpdate.notes payment) p else p.

Definition pay_penalty (today : date) (penalty_id : string)
    (payment : PenaltyUpdate.t) : M Penalty.t :=
  (penalty <- query_first penalties penalty_id ;;
   match penalty with
   | None => raise (HTTPException 404 "Jarima topilmadi")
   | Some penalty =>
     if bool_decide (Penalty.status penalty = paid)
     then raise (HTTPException 400 "Bu jarima allaqachon to'langan")
     else
       update (with_penalties (alter (paid_penalty today payment) penalty_id)) ;;
       ret (paid_penalty today payment penalty)
   end)%session.

End Routes.

(* ===================================================================== *)
(** ** Error kinds, eligibility rules and store invariants                *)
(* ===================================================================== *)

(** The handlers raise 404 for an absent row and 400 for every rule they
    refuse a request by. *)
Definition is_NotFound (e : exn) : bool :=
  match e with HTTPException code _ => code =? 404 | _ => false end.
Definition is_Conflict (e : exn) : bool :=
  match e with HTTPException code _ => code =? 400 | _ => false end.

(** [cites n s]: the decimal numeral of [n] occurs in the message [s]. *)
Definition cites (n : Z) (s : string) : bool :=
  match String.index 0 (pretty n) s with Some _ => true | None => false end.

Module Rules.
Import Eligibility.




End Rules.

Module Invariants.

Definition open_loan (b : Borrowing.t) : Prop :=
  Borrowing.status b = borrowed ∨ Borrowing.status b = late.

Definition open_loan_of_member (member_id : string) (kb : string * Borrowing.t) : Prop :=
  Borrowing.member_id kb.2 = member_id ∧ open_loan kb.2.
Definition open_loan_of_book (book_id : string) (kb : string * Borrowing.t) : Prop :=
  Borrowing.book_id kb.2 = book_id ∧ open_loan kb.2.

#[global] Instance open_loan_of_member_dec member_id kb :
  Decision (open_loan_of_member member_id kb).
Proof. unfold open_loan_of_member, open_loan. apply _. Defined.
#[global] Instance open_loan_of_book_dec book_id kb :
  Decision (open_loan_of_book book_id kb).
Proof. unfold open_loan_of_book, open_loan. apply _. Defined.

(** The number of a member's loans with status in {borrowed, late}. *)
Definition open_loans_of_member (member_id : string) (db : DB) : nat :=
  size (filter (open_loan_of_member member_id) (borrowings db)).
Definition open_loans_of_book (book_id : string) (db : DB) : nat :=
  size (filter (open_loan_of_book book_id) (borrowings db)).

(** [0 ≤ available_copies ≤ total_copies], for every book. *)
Definition book_invariant (db : DB) : Prop :=
  map_Forall (λ _ b, 0 <= Book.available_copies b <= Book.total_copies b) (books db).

(** The lower half of it alone. *)
Definition copies_nonneg (db : DB) : Prop :=
  map_Forall (λ _ b, 0 <= Book.available_copies b) (books db).

(** [current_borrowed] is the number of the member's open loans, for
    every member. *)
Definition member_invariant (db : DB) : Prop :=
  map_Forall (λ k m, Member.current_borrowed m = Z.of_nat (open_loans_of_member k db))
             (members db).

(** Copies on the shelf and copies out on open loans together never
    exceed the stock. *)
Definition ledger_invariant (db : DB) : Prop :=
  map_Forall (λ k b, 0 <= Book.available_copies b
                     ∧ Book.available_copies b + Z.of_nat (open_loans_of_book k db)
                       <= Book.total_copies b)
             (books db).

#[global] Instance book_invariant_dec db : Decision (book_invariant db).
Proof. unfold book_invariant. apply _. Defined.
#[global] Instance member_invariant_dec db : Decision (member_invariant db).
Proof. unfold member_invariant. apply _. Defined.
#[global] Instance ledger_invariant_dec db : Decision (ledger_invariant db).
Proof. unfold ledger_invariant. apply _. Defined.

End Invariants.

(* ===================================================================== *)
(** ** Sample stores, after the fixtures of backend_tests.py              *)
(* ===================================================================== *)

Module Fixtures.
Import Routes.

Definition today0 : date := 739000.

(** [test_member] and [test_book] *)
Definition test_member : Member.t := Member.mk true 0 0.
Definition test_book : Book.t := Book.mk 5 5 true.

Definition db_fresh : DB :=
  mkDB {[ "b1" := test_book ]} {[ "m1" := test_member ]} ∅ ∅.

Definition borrow_data (days : Z) : BorrowingCreate.t :=
  BorrowingCreate.mk "m1" "b1" days None.

(** The store after [test_create_borrowing]: one loan of 14 days. *)
Definition db_loaned : DB :=
  (request (create_borrowing today0 "l1" "lib1" (borrow_data 14)) db_fresh).2.

(** ... and after that loan came back on its due date. *)
Definition db_returned : DB :=
  (request (return_book (today0 + 14) "p1" "l1" (BorrowingReturn.mk None)) db_loaned).2.

(** The member holds five open loans of a ten-copy book. *)
Definition open_loan_row : Borrowing.t :=
  Borrowing.mk "m1" "b1" (Some "lib1") (today0 + 14) None borrowed None.
Definition db_at_cap : DB :=
  mkDB {[ "b1" := Book.mk 10 5 true ]} {[ "m1" := Member.mk true 5 5 ]}
       (list_to_map [("l1", open_loan_row); ("l2", open_loan_row); ("l3", open_loan_row);
                     ("l4", open_loan_row); ("l5", open_loan_row)])
       ∅.

(** The book was withdrawn ([is_active] false) with a copy on the shelf. *)
Definition db_withdrawn : DB :=
  mkDB {[ "b1" := Book.mk 1 1 false ]} {[ "m1" := test_member ]} ∅ ∅.

(** [test_borrow_with_unpaid_penalties]: one unpaid penalty of 5000. *)
Definition db_unpaid : DB :=
  mkDB {[ "b1" := test_book ]} {[ "m1" := test_member ]} ∅
       {[ "p1" := Penalty.mk "m1" None 5000 "Test" unpaid None None None ]}.

(** [test_borrow_unavailable_book]: no copy at all. *)
Definition db_unavailable : DB :=
  mkDB {[ "b1" := Book.mk 0 0 true ]} {[ "m1" := test_member ]} ∅ ∅.

(** A single-copy book ... *)
Definition db_single_copy : DB :=
  mkDB {[ "b1" := Book.mk 1 1 true ]} {[ "m1" := test_member ]} ∅ ∅.

(** ... its copy lent out, and the stock then set to zero by
    [update_book]: [available_copies = max(0, 0 + (0 - 1)) = 0],
    [total_copies = 0]. *)
Definition db_stock_cut : DB :=
  mkDB {[ "b1" := Book.mk 0 0 true ]} {[ "m1" := Member.mk true 1 1 ]}
       {[ "l1" := open_loan_row ]} ∅.

(** [test_pay_penalty]: an unpaid penalty of 10000. *)
Definition db_penalty : DB :=
  mkDB ∅ {[ "m1" := test_member ]} ∅
       {[ "p1" := Penalty.mk "m1" None 10000 "Test penalty" unpaid None None None ]}.

End Fixtures.

(* ===================================================================== *)
(** ** The tier schedule in the words of the specification                *)
(* ===================================================================== *)

(** The rate charged for the [day]-th day of lateness, counted from 1. *)
Definition tier_rate (day : Z) : Z :=
  if day <=? 7 then 3000
  else if day <=? 14 then 5000
  else if day <=? 30 then 7000
  else 10000.

(** Days [1 .. n] charged one by one, each at the rate of its tier. *)
Fixpoint charge_days (n : nat) : Z :=
  match n with
  | O => 0
  | S k => charge_days k + tier_rate (Z.of_nat (S k))
  end.

(** The same total with each tier consumed in one step. *)
Definition tier_total (d : Z) : Z :=
  3000 * Z.min d 7
  + 5000 * Z.min (Z.max (d - 7) 0) 7
  + 7000 * Z.min (Z.max (d - 14) 0) 16
  + 10000 * Z.max (d - 30) 0.

(* ===================================================================== *)
(** ** backend_routes.py and backend_main.py: the other handlers          *)
(* ===================================================================== *)

Module BookRoutes.
Import Invariants.

(** [delete_book]: the count is of the book's loans with status in
    ['borrowed', 'late'].  [db.delete(book)] takes the book's row out;
    what the store does to loan rows that still name the book is decided
    by declarations outside this development, and the statements about an
    accepted deletion are made for books no loan row names. *)
Definition delete_book (book_id : string) : M string :=
  (book <- query_first books book_id ;;
   match book with
   | None => raise (HTTPException 404 "Kitob topilmadi")
   | Some _ =>
     active_borrowings <- query (λ db, Z.of_nat (open_loans_of_book book_id db)) ;;
     if 0 <? active_borrowings
     then raise (HTTPException 400
                   ("Bu kitobning " +:+ pretty active_borrowings
                    +:+ " ta aktiv ijarasi bor. Avval ularni qaytaring."))
     else
       update (with_books (delete book_id)) ;;
       ret "Kitob muvaffaqiyatli o'chirildi"
   end)%session.

End BookRoutes.

Module BorrowingQueries.
Import Invariants.

(** The [days_late] that the loop of [get_borrowings] attaches to a row. *)
Definition get_borrowings_days_late (today : date) (b : Borrowing.t) : option Z :=
  if bool_decide (open_loan b) && (Borrowing.due_date b <? today)
  then Some (today - Borrowing.due_date b)
  else None.

(** [db.query(Borrowing).join(Member).join(Book)]: the inner joins keep
    the loans whose member row and book row exist. *)
Definition joined (db : DB) (kb : string * Borrowing.t) : Prop :=
  is_Some (members db !! Borrowing.member_id kb.2)
  ∧ is_Some (books db !! Borrowing.book_id kb.2).

Definition late_row (db : DB) (today : date) (kb : string * Borrowing.t) : Prop :=
  joined db kb ∧ open_loan kb.2 ∧ Borrowing.due_date kb.2 < today.

#[global] Instance late_row_dec db today kb : Decision (late_row db today kb).
Proof. unfold late_row, joined, open_loan. apply _. Defined.

(** [get_late_borrowings]: the rows come in no stated order, so the result
    is keyed by [borrow_id]; each row carries its [days_late]. *)
Definition get_late_borrowings (today : date) : M (gmap string (Borrowing.t * Z)) :=
  query (λ db, (λ b, (b, today - Borrowing.due_date b))
               <$> filter (late_row db today) (borrowings db)).

End BorrowingQueries.

(* ===================================================================== *)
(** ** backend_utils.py: dates, discount, validation, formatting, pages   *)
(* ===================================================================== *)

Module DateUtils.

(** [None] stands for the [OverflowError] of [datetime]. *)
Definition calculate_due_date (borrow_date : date) (days : Z) : option date :=
  match timedelta days with
  | Some delta => date_add borrow_date delta
  | None => None
  end.

(** [today] is [date.today()]; a [date] is never falsy, so [return_date or
    date.today()] is the return date whenever one is given. *)
Definition get_days_late (today : date) (due_date : date) (return_date : option date) : Z :=
  let actual_return := match return_date with Some d => d | None => today end in
  let days_late := actual_return - due_date in
  Z.max 0 days_late.

Definition is_overdue (today : date) (due_date : date) : bool :=
  due_date <? today.

End DateUtils.

Module Discount.

(** [Penalty.member_id == member_id, Penalty.status != 'waived'] *)
Definition counted (member_id : string) (kp : string * Penalty.t) : Prop :=
  Penalty.member_id kp.2 = member_id ∧ Penalty.status kp.2 ≠ waived.

#[global] Instance counted_dec member_id kp : Decision (counted member_id kp).
Proof. unfold counted. apply _. Defined.



End Discount.

Module Validation.

(** A character of a string stands for one code point; the functions
    below are those of [str] on text whose code points are below 256. *)

(** [[0-9]] of the pattern: the ten ASCII digits. *)
Definition ascii_digit (c : Ascii.ascii) : bool :=
  (48 <=? Ascii.nat_of_ascii c)%nat && (Ascii.nat_of_ascii c <=? 57)%nat.

(** [str.isdigit] on one character: the ASCII digits and, below 256, the
    superscripts U+00B2, U+00B3 and U+00B9. *)
Definition char_isdigit (c : Ascii.ascii) : bool :=
  ascii_digit c
  || (Ascii.nat_of_ascii c =? 178)%nat || (Ascii.nat_of_ascii c =? 179)%nat
  || (Ascii.nat_of_ascii c =? 185)%nat.

(** [s.isdigit()]: every character is a digit and there is at least one. *)
Fixpoint all_isdigit (s : string) : bool :=
  match s with
  | EmptyString => true
  | String c s' => char_isdigit c && all_isdigit s'
  end.
Definition isdigit (s : string) : bool :=
  match s with
  | EmptyString => false
  | _ => all_isdigit s
  end.

(** [s.replace(c, '')] for a one-character [c]. *)
Fixpoint remove_char (c : Ascii.ascii) (s : string) : string :=
  match s with
  | EmptyString => EmptyString
  | String x s' => if Ascii.eqb x c then remove_char c s' else String x (remove_char c s')
  end.

Definition validate_isbn (isbn : string) : bool :=
  let isbn := remove_char " "%char (remove_char "-"%char isbn) in
  ((String.length isbn =? 10)%nat || (String.length isbn =? 13)%nat) && isdigit isbn.

(** [[0-9]{9}$] at the start of [s]: nine digits, then the end of the
    string or one last newline. *)
Fixpoint digits_then_end (n : nat) (s : string) : bool :=
  match n with
  | O => match s with
         | EmptyString => true
         | String c EmptyString => (Ascii.nat_of_ascii c =? 10)%nat
         | _ => false
         end
  | S k => match s with
           | String c s' => ascii_digit c && digits_then_end k s'
           | EmptyString => false
           end
  end.

(** [phone.startswith(p)], and what follows the prefix. *)
Fixpoint strip_prefix (p s : string) : option string :=
  match p with
  | EmptyString => Some s
  | String a p' =>
    match s with
    | String b s' => if Ascii.eqb a b then strip_prefix p' s' else None
    | EmptyString => None
    end
  end.

(** [re.match(r'^(\+998)?[0-9]{9}$', phone) is not None] *)
Definition validate_phone (phone : string) : bool :=
  match strip_prefix "+998" phone with
  | Some rest => digits_then_end 9 rest || digits_then_end 9 phone
  | None => digits_then_end 9 phone
  end.

End Validation.

Module Formatting.
Import Validation.

(** [s[i:j]] and [s[i:]] for [0 ≤ i ≤ j]. *)
Fixpoint drop_str (n : nat) (s : string) : string :=
  match n, s with
  | O, _ => s
  | S k, String _ s' => drop_str k s'
  | S _, EmptyString => EmptyString
  end.
Fixpoint take_str (n : nat) (s : string) : string :=
  match n, s with
  | O, _ => EmptyString
  | S k, String c s' => String c (take_str k s')
  | S _, EmptyString => EmptyString
  end.
Definition slice (i j : nat) (s : string) : string := take_str (j - i) (drop_str i s).

Definition format_phone (phone : string) : string :=
  let phone := match strip_prefix "+998" phone with
               | Some rest => rest
               | None => phone
               end in
  "+998 " +:+ slice 0 2 phone +:+ " " +:+ slice 2 5 phone +:+ " "
  +:+ slice 5 7 phone +:+ " " +:+ drop_str 7 phone.

End Formatting.

Module Pagination.

Record Page (A : Type) := mkPage {
  items : list A;
  total : Z;
  page : Z;
  per_page : Z;
  pages : Z
}.
Arguments mkPage {A}.
Arguments items {A}.
Arguments total {A}.
Arguments page {A}.
Arguments per_page {A}.
Arguments pages {A}.

(** [query] is the result of the query in the order the store gives it.
    [offset] and [limit] are taken for a page number of at least 1 and a
    page size of at least 0; what a negative offset or limit does is the
    store's business.  [None] stands for the [ZeroDivisionError] of a page
    size of 0. *)
Definition paginate {A} (query : list A) (page per_page : Z) : option (Page A) :=
  let total := Z.of_nat (length query) in
  let items := take (Z.to_nat per_page) (drop (Z.to_nat ((page - 1) * per_page)) query) in
  if per_page =? 0 then None
  else Some (mkPage items total page per_page ((total + per_page - 1) `div` per_page)).

(** The items of pages 1 to [n], one page after the other. *)
Fixpoint first_pages {A} (query : list A) (per_page : Z) (n : nat) : list A :=
  match n with
  | O => []
  | S k => first_pages query per_page k
           ++ match paginate query (Z.of_nat (S k)) per_page with
              | Some p => items p
              | None => []
              end
  end.

End Pagination.

Module Integrity.
Import Invariants.

(** Every loan that is still open names a book that is in the store. *)
Definition open_loans_have_books (db : DB) : Prop :=
  map_Forall (λ _ b, open_loan b → is_Some (books db !! Borrowing.book_id b))
             (borrowings db).

#[global] Instance open_loans_have_books_dec db : Decision (open_loans_have_books db).
Proof. unfold open_loans_have_books, open_loan. apply _. Defined.

End Integrity.

(* ===================================================================== *)
(** * Theorems                                                            *)
(* ===================================================================== *)

Ltac session_unfold :=
  unfold bind, ret, raise, query_first, query, update, lift.

(** ** Counting the rows a filter keeps *)

Section FilterCount.
Context {A : Type} (P : string * A → Prop) `{!∀ x, Decision (P x)}.

Lemma alter_as_insert (f : A → A) (k : string) (m : gmap string A) (x : A) :
  m !! k = Some x → alter f k m = <[k := f x]> m.
Proof.
  intros Hk. apply map_eq. intros j. destruct (decide (k = j)) as [->|Hne].
  - by rewrite lookup_alter_eq, lookup_insert_eq, Hk.
  - by rewrite lookup_alter_ne, lookup_insert_ne.
Qed.

Lemma size_filter_insert (k : string) (x : A) (m : gmap string A) :
  size (filter P (<[k := x]> m))
  = ((if decide (P (k, x)) then 1 else 0) + size (filter P (delete k m)))%nat.
Proof.
  rewrite <-(insert_delete_eq m), map_filter_insert.
  case_decide.
  - rewrite map_size_insert_None; [done|].
    by rewrite map_filter_delete, lookup_delete_eq.
  - by rewrite !map_filter_delete, delete_delete_eq.
Qed.

Lemma size_filter_lookup (k : string) (x : A) (m : gmap string A) :
  m !! k = Some x →
  size (filter P m)
  = ((if decide (P (k, x)) then 1 else 0) + size (filter P (delete k m)))%nat.
Proof.
  intros Hk. rewrite <-(insert_id m k x) at 1 by done. apply size_filter_insert.
Qed.
End FilterCount.

Lemma request_failure {A} (m : M A) db e db' :
  request m db = (inl e, db') → db' = db.
Proof. unfold request. destruct (m db) as [[?|?] ?]; congruence. Qed.

(** ** Binary64 floats that hold whole numbers *)

Section Binary64.
Import PyFloat.

Lemma digits2_pos_log2 (p : positive) :
  Z.pos (digits2_pos p) = Z.log2 (Z.pos p) + 1.
Proof.
  assert (Hsize : ∀ q, digits2_pos q = Pos.size q)
    by (induction q as [q IH|q IH|]; cbn; by rewrite ?IH).
  rewrite Hsize. destruct p; cbn; lia.
Qed.

Lemma iter_xO_pow2 (p d : positive) :
  Z.pos (Pos.iter xO p d) = Z.pos p * 2 ^ Z.pos d.
Proof.
  revert p. induction d as [|d IH] using Pos.peano_ind; intros p.
  - cbn. lia.
  - rewrite Pos.iter_succ, Pos2Z.inj_xO, IH, Pos2Z.inj_succ, Z.pow_succ_r by lia. lia.
Qed.

Lemma iter_shr_1 (q p : positive) :
  SpecFloat.iter_pos shr_1 q (Build_shr_record (Z.pos (Pos.iter xO p q)) false false)
  = Build_shr_record (Z.pos p) false false.
Proof.
  revert p. induction q as [q IH|q IH|]; intros p; cbn.
  - by rewrite !IH.
  - by rewrite !IH.
  - done.
Qed.

(** Rounding a mantissa and an exponent that stand for a number with a
    53-digit mantissa [m] at exponent [t] gives exactly that number. *)
Lemma binary_round_exact (m : positive) (t : Z) (p : positive) (e : Z) :
  Z.pos (digits2_pos m) = 53 →
  -1074 <= t <= 971 →
  -1074 <= e →
  Z.pos p * 2 ^ (e + 1074) = Z.pos m * 2 ^ (t + 1074) →
  binary_round prec emax false p e = S754_finite false m t.
Proof.
  intros Hm Ht He Heq.
  assert (Hpow : ∀ k, 0 <= k → 2 ^ k ≠ 0) by (intros; apply Z.pow_nonzero; lia).
  assert (Hdig : Z.pos (digits2_pos p) + e = 53 + t).
  { apply (f_equal Z.log2) in Heq.
    rewrite !Z.log2_mul_pow2 in Heq by lia.
    rewrite digits2_pos_log2 in Hm |- *. lia. }
  assert (Hfexp : ∀ d, d = 53 + t → fexp prec emax d = t)
    by (intros d ->; unfold fexp, SpecFloat.emin, prec, emax; lia).
  assert (Haux : binary_round_aux prec emax false (Z.pos m) t loc_Exact
                 = S754_finite false m t).
  { unfold binary_round_aux, shr_fexp. cbn [Zdigits2 shr_record_of_loc].
    rewrite Hfexp, Z.sub_diag by lia. cbn [shr shr_m loc_of_shr_record round_nearest_even].
    cbn [Zdigits2 shr_record_of_loc]. rewrite Hfexp, Z.sub_diag by lia. cbn [shr shr_m].
    by rewrite (proj2 (Z.leb_le t (emax - prec))) by (unfold emax, prec; lia). }
  unfold binary_round. rewrite Hfexp by done. unfold shl_align.
  destruct (t - e) as [|q|d] eqn:Hte.
  - assert (e = t) as -> by lia.
    apply Z.mul_cancel_r in Heq; [|apply Hpow; lia].
    by injection Heq as ->.
  - (* the mantissa is shifted to the right by [q], losing only zeros *)
    assert (p = Pos.iter xO m q) as ->.
    { apply Pos2Z.inj. rewrite iter_xO_pow2.
      replace (t + 1074) with (Z.pos q + (e + 1074)) in Heq by lia.
      rewrite (Z.pow_add_r 2 (Z.pos q)), Z.mul_assoc in Heq by lia.
      apply Z.mul_cancel_r in Heq; [lia|apply Hpow; lia]. }
    unfold binary_round_aux, shr_fexp. cbn [Zdigits2 shr_record_of_loc].
    rewrite Hfexp, Hte by done. cbn [shr]. rewrite iter_shr_1.
    cbn [shr_m loc_of_shr_record round_nearest_even].
    replace (e + Z.pos q) with t by lia.
    cbn [Zdigits2 shr_record_of_loc]. rewrite Hfexp, Z.sub_diag by lia. cbn [shr shr_m].
    by rewrite (proj2 (Z.leb_le t (emax - prec))) by (unfold emax, prec; lia).
  - assert (Pos.iter xO p d = m) as ->; [|done].
    apply Pos2Z.inj. rewrite iter_xO_pow2.
    replace (e + 1074) with (Z.pos d + (t + 1074)) in Heq by lia.
    rewrite (Z.pow_add_r 2 (Z.pos d)), Z.mul_assoc in Heq by lia.
    apply Z.mul_cancel_r in Heq; [lia|apply Hpow; lia].
Qed.


Lemma canonical_mantissa_exists (n : Z) :
  representable n → 0 < n →
  ∃ m t, Z.pos (digits2_pos m) = 53 ∧ -1074 <= t <= 971
         ∧ n * 2 ^ 1074 = Z.pos m * 2 ^ (t + 1074).
Proof.
  intros (m0 & k & -> & Hm0 & Hk) Hpos.
  assert (0 < 2 ^ k) by (apply Z.pow_pos_nonneg; lia).
  assert (Hm0pos : 0 < m0) by nia.
  assert (Hlog : 0 <= Z.log2 m0 < 53).
  { split; [apply Z.log2_nonneg|]. apply Z.log2_lt_pow2; lia. }
  remember (52 - Z.log2 m0) as j eqn:Hj.
  assert (Hmj : 0 < m0 * 2 ^ j)
    by (apply Z.mul_pos_pos; [done|apply Z.pow_pos_nonneg; lia]).
  exists (Z.to_pos (m0 * 2 ^ j)), (k - j).
  rewrite digits2_pos_log2, Z2Pos.id by done.
  split; [rewrite Z.log2_mul_pow2 by lia; lia|]. split; [lia|].
  replace (k - j + 1074) with (k + 1074 - j) by lia.
  rewrite <-!Z.mul_assoc, <-!Z.pow_add_r by lia. f_equal. f_equal. lia.
Qed.

Lemma binary_normalize_exact (n : Z) :
  representable n → 0 <= n → sf_holds (binary_normalize prec emax n 0 false) n.
Proof.
  intros Hrep Hn. destruct n as [|p|p]; [by left| |lia].
  destruct (canonical_mantissa_exists _ Hrep) as (m & t & Hm & Ht & Heq); [lia|].
  right. exists m, t. split; [|done].
  by apply binary_round_exact.
Qed.

Lemma shl_align_value (m : positive) (t ez : Z) :
  -1074 <= ez <= t →
  Z.pos (shl_align m t ez).1 * 2 ^ (ez + 1074) = Z.pos m * 2 ^ (t + 1074).
Proof.
  intros Hez. unfold shl_align. destruct (ez - t) as [|q|d] eqn:Hd; cbn [fst]; try lia.
  - by replace ez with t by lia.
  - rewrite iter_xO_pow2. replace (t + 1074) with (Z.pos d + (ez + 1074)) by lia.
    rewrite (Z.pow_add_r 2 (Z.pos d)) by lia. lia.
Qed.

Lemma SF64add_exact (sa sb : spec_float) (a b : Z) :
  sf_holds sa a → sf_holds sb b → representable (a + b) →
  sf_holds (SF64add sa sb) (a + b).
Proof.
  intros [[-> ->]|(ma & ta & -> & Hma & Hta & Ha)] [[-> ->]|(mb & tb & -> & Hmb & Htb & Hb)] Hrep.
  - by left.
  - right. by exists mb, tb.
  - right. rewrite Z.add_0_r. by exists ma, ta.
  - assert (Hpa : 0 < a) by
      (assert (0 < 2 ^ (ta + 1074)) by (apply Z.pow_pos_nonneg; lia); nia).
    assert (Hpb : 0 < b) by
      (assert (0 < 2 ^ (tb + 1074)) by (apply Z.pow_pos_nonneg; lia); nia).
    destruct (canonical_mantissa_exists _ Hrep) as (m & t & Hm & Ht & Heq); [lia|].
    right. exists m, t. split; [|done].
    unfold SF64add, SFadd. cbn [cond_Zopp]. rewrite Pos2Z.add_pos_pos.
    cbn [binary_normalize]. apply binary_round_exact; [done|done|lia|].
    rewrite Pos2Z.inj_add, Z.mul_add_distr_r, !shl_align_value by lia.
    rewrite <-Heq, <-Ha, <-Hb. lia.
Qed.

Lemma sf_holds_valid sf n : sf_holds sf n → valid_binary sf = true.
Proof.
  intros [[_ ->]|(m & t & -> & Hm & Ht & _)]; [done|].
  unfold valid_binary, bounded, canonical_mantissa. rewrite Hm.
  apply andb_true_iff. split; [apply Z.eqb_eq|apply Z.leb_le];
    unfold fexp, SpecFloat.emin, prec, emax; lia.
Qed.

Lemma float_holds_zero : float_holds 0%float 0.
Proof. by left. Qed.

Lemma int_to_float_exact (n : Z) :
  representable n → 0 <= n → ∃ f, int_to_float n = Some f ∧ float_holds f n.
Proof.
  intros Hrep Hn. pose proof (binary_normalize_exact n Hrep Hn) as Hsf.
  exists (SF2Prim (binary_normalize prec emax n 0 false)). split.
  - unfold int_to_float. by destruct Hsf as [[_ ->]|(m & t & -> & _)].
  - unfold float_holds. by rewrite Prim2SF_SF2Prim by by eapply sf_holds_valid.
Qed.

Lemma add_exact (x y : float) (a b : Z) :
  float_holds x a → float_holds y b → representable (a + b) → float_holds (x + y) (a + b).
Proof. unfold float_holds. rewrite add_spec. apply SF64add_exact. Qed.

Lemma add_int_exact (x : float) (a b : Z) :
  float_holds x a → 0 <= b → representable b → representable (a + b) →
  ∃ f, add_int x b = inr f ∧ float_holds f (a + b).
Proof.
  intros Hx Hb Hrb Hrab.
  destruct (int_to_float_exact b Hrb Hb) as (y & Hy & Hyb).
  exists (x + y)%float. unfold add_int. rewrite Hy. split; [done|].
  by apply add_exact.
Qed.

Lemma float_holds_value (f : float) (n : Z) : float_holds f n → float_value f = Some n.
Proof.
  unfold float_holds, float_value.
  intros [[-> ->]|(m & t & -> & Hm & Ht & Heq)]; [done|]. cbn [cond_Zopp].
  destruct (Z.leb_spec 0 t) as [Hpos|Hneg].
  - f_equal. rewrite Z.pow_add_r in Heq by lia.
    rewrite Z.mul_assoc in Heq. apply Z.mul_cancel_r in Heq; [done|].
    apply Z.pow_nonzero; lia.
  - assert (Hm' : Z.pos m = n * 2 ^ (- t)).
    { replace 1074 with (- t + (t + 1074)) in Heq at 1 by lia.
      rewrite Z.pow_add_r, Z.mul_assoc in Heq by lia.
      apply Z.mul_cancel_r in Heq; [done|]. apply Z.pow_nonzero; lia. }
    assert (0 < 2 ^ (- t)) by (apply Z.pow_pos_nonneg; lia).
    rewrite Hm', Z.mod_mul, Z.div_mul by lia. done.
Qed.

Lemma mantissa_bounds (m : positive) :
  Z.pos (digits2_pos m) = 53 → 2 ^ 52 <= Z.pos m < 2 ^ 53.
Proof.
  rewrite digits2_pos_log2. intros Hm.
  pose proof (Z.log2_spec (Z.pos m) eq_refl) as Hspec.
  by replace (Z.log2 (Z.pos m)) with 52 in Hspec by lia.
Qed.

(** Floats that hold natural numbers compare as the numbers do. *)
Lemma SFcompare_exact (sa sb : spec_float) (a b : Z) :
  sf_holds sa a → sf_holds sb b → SFcompare sa sb = Some (a ?= b).
Proof.
  assert (Hpos : ∀ m t n, -1074 <= t → n * 2 ^ 1074 = Z.pos m * 2 ^ (t + 1074) → 0 < n).
  { intros m t n Ht Hn.
    assert (0 < 2 ^ (t + 1074)) by (apply Z.pow_pos_nonneg; lia).
    assert (0 < 2 ^ 1074) by (apply Z.pow_pos_nonneg; lia). nia. }
  assert (Hlt : ∀ ma ta mb tb x y,
            Z.pos (digits2_pos ma) = 53 → Z.pos (digits2_pos mb) = 53 →
            -1074 <= ta → ta < tb →
            x * 2 ^ 1074 = Z.pos ma * 2 ^ (ta + 1074) →
            y * 2 ^ 1074 = Z.pos mb * 2 ^ (tb + 1074) → x < y).
  { intros ma ta mb tb x y Hma%mantissa_bounds Hmb%mantissa_bounds Hta Hlt Hx Hy.
    replace (tb + 1074) with (tb - ta - 1 + (1 + (ta + 1074))) in Hy by lia.
    rewrite (Z.pow_add_r 2 (tb - ta - 1)), (Z.pow_add_r 2 1) in Hy by lia.
    change (2 ^ 1) with 2 in Hy.
    assert (0 < 2 ^ (tb - ta - 1)) by (apply Z.pow_pos_nonneg; lia).
    assert (0 < 2 ^ (ta + 1074)) by (apply Z.pow_pos_nonneg; lia).
    assert (0 < 2 ^ 1074) by (apply Z.pow_pos_nonneg; lia).
    change (2 ^ 52) with 4503599627370496 in *.
    change (2 ^ 53) with 9007199254740992 in *.
    apply (Z.mul_lt_mono_pos_r (2 ^ 1074)); [done|]. rewrite Hx, Hy.
    remember (2 ^ (ta + 1074)) as P. remember (2 ^ (tb - ta - 1)) as R.
    assert (Z.pos ma * P < 9007199254740992 * P) by nia.
    assert (9007199254740992 * P <= 4503599627370496 * (R * (2 * P))) by nia.
    assert (4503599627370496 * (R * (2 * P)) <= Z.pos mb * (R * (2 * P))) by nia.
    lia. }
  intros [[-> ->]|(ma & ta & -> & Hma & Hta & Ha)] [[-> ->]|(mb & tb & -> & Hmb & Htb & Hb)].
  - done.
  - unfold SFcompare. f_equal. symmetry. apply Z.compare_lt_iff.
    eapply Hpos; [|done]. lia.
  - unfold SFcompare. f_equal. symmetry. apply Z.compare_gt_iff.
    eapply Hpos; [|done]. lia.
  - unfold SFcompare. f_equal. destruct (Z.compare_spec ta tb) as [->|Hl|Hg].
    + change (Pos.compare_cont Eq ma mb) with (Z.pos ma ?= Z.pos mb).
      assert (0 < 2 ^ (tb + 1074)) by (apply Z.pow_pos_nonneg; lia).
      assert (0 < 2 ^ 1074) by (apply Z.pow_pos_nonneg; lia).
      destruct (Z.compare_spec (Z.pos ma) (Z.pos mb)), (Z.compare_spec a b);
        try done; nia.
    + symmetry. apply Z.compare_lt_iff. eapply (Hlt ma ta mb tb); [done..|lia| | |]; done.
    + symmetry. apply Z.compare_gt_iff. eapply (Hlt mb tb ma ta); [done..|lia| | |]; done.
Qed.

Lemma float_holds_compare (x y : float) (a b : Z) :
  float_holds x a → float_holds y b →
  (x <=? y)%float = (a <=? b) ∧ (x <? y)%float = (a <? b) ∧ (x =? y)%float = (a =? b).
Proof.
  intros Hx Hy. rewrite FloatAxioms.leb_spec, FloatAxioms.ltb_spec, FloatAxioms.eqb_spec.
  unfold SFleb, SFltb, SFeqb. rewrite (SFcompare_exact _ _ a b Hx Hy).
  unfold Z.leb, Z.ltb, Z.eqb at 1. rewrite <-Z.eqb_compare.
  by destruct (a ?= b) eqn:Hc; rewrite ?Hc.
Qed.

Lemma representable_small (n : Z) : 0 <= n < 2 ^ 53 → representable n.
Proof. intros Hn. exists n, 0. rewrite Z.mul_1_r. repeat split; lia. Qed.

End Binary64.

(** ** The progressive penalty *)

Section ProgressivePenalty.
Import PyFloat Utils.

Lemma charge_days_closed_form (n : nat) :
  charge_days n = tier_total (Z.of_nat n).
Proof.
  induction n as [|k IH]; [reflexivity|].
  cbn [charge_days]. rewrite IH. unfold tier_rate, tier_total.
  repeat match goal with
         | |- context [?a <=? ?b] => destruct (Z.leb_spec a b)
         end; lia.
Qed.

(** The flat rate of the Return path, as the calculator has it. *)
Lemma flat_penalty_rate (days_late : Z) :
  calculate_late_penalty days_late 5000 = days_late * 5000
  ∧ calculate_late_penalty 5 5000 = 25000.
Proof. split; reflexivity. Qed.

(** One tier of the calculator: while the accumulator stays below 2^53
    the float holds the running total exactly. *)
Lemma tier_exact (penalty : float) (v remaining cap rate : Z) :
  float_holds penalty v → 0 <= v → 0 <= cap → 0 <= rate → v + cap * rate < 2 ^ 53 →
  ∃ f,
    (if 0 <? remaining then
       and_then (add_int penalty (Z.min remaining cap * rate)) (λ penalty,
       inr (penalty, remaining - Z.min remaining cap))
     else inr (penalty, remaining))
    = inr (f, remaining - Z.min (Z.max remaining 0) cap)
    ∧ float_holds f (v + Z.min (Z.max remaining 0) cap * rate).
Proof.
  intros Hp Hv Hcap Hrate Hbound.
  destruct (Z.ltb_spec 0 remaining) as [Hpos|Hneg].
  - replace (Z.max remaining 0) with remaining by lia.
    assert (0 <= Z.min remaining cap * rate <= cap * rate) by nia.
    destruct (add_int_exact penalty v (Z.min remaining cap * rate)) as (f & -> & Hf);
      [done|lia|apply representable_small; lia|apply representable_small; lia|].
    by exists f.
  - exists penalty. replace (Z.min (Z.max remaining 0) cap) with 0 by lia.
    by rewrite Z.sub_0_r, Z.mul_0_l, Z.add_0_r.
Qed.

(** Up to 14411518807598 days the float returned is exactly the tier
    total; a lateness that is not positive costs nothing. *)
Lemma progressive_exact (d : Z) :
  d <= 14411518807598 →
  ∃ f, calculate_progressive_penalty d = inr f ∧ float_holds f (tier_total (Z.max d 0)).
Proof.
  intros Hd. unfold calculate_progressive_penalty. cbv zeta.
  destruct (tier_exact 0%float 0 d 7 3000) as (f1 & -> & Hf1);
    [apply float_holds_zero|lia..|]. cbn [and_then].
  match type of Hf1 with float_holds _ ?v =>
    match goal with |- context [if 0 <? ?r then and_then (add_int f1 _) _ else _] =>
      destruct (tier_exact f1 v r 7 5000) as (f2 & -> & Hf2); [done|lia..|]
    end
  end. cbn [and_then].
  match type of Hf2 with float_holds _ ?v =>
    match goal with |- context [if 0 <? ?r then and_then (add_int f2 _) _ else _] =>
      destruct (tier_exact f2 v r 16 7000) as (f3 & -> & Hf3); [done|lia..|]
    end
  end. cbn [and_then].
  match goal with |- context [if 0 <? ?r then _ else _] =>
    destruct (Z.ltb_spec 0 r) as [Hpos|Hneg]
  end.
  - match type of Hf3 with float_holds _ ?v =>
      match goal with |- context [add_int f3 ?b] =>
        destruct (add_int_exact f3 v b) as (f & -> & Hf); [done|lia| | |]
      end
    end.
    + exists ((d - 30) * 625), 4. split; [|lia]. change (2 ^ 4) with 16. lia.
    + exists (10500 + (d - 30) * 625), 4. split; [|lia]. change (2 ^ 4) with 16. lia.
    + exists f. split; [done|].
      match type of Hf with float_holds _ ?v => replace (tier_total (Z.max d 0)) with v end;
        [done|]. unfold tier_total. lia.
  - exists f3. split; [done|].
    match type of Hf3 with float_holds _ ?v => replace (tier_total (Z.max d 0)) with v end;
      [done|]. unfold tier_total. lia.
Qed.


(** C2. For every non-negative lateness up to 14411518807598 days the
    progressive penalty charges the days tier by tier: the float it
    returns is exactly the sum, over the late days counted from 1, of 3000
    for days 1-7, 5000 for days 8-14, 7000 for days 15-30 and 10000 from
    day 31 on, each tier being used up before the next one starts; so 10
    days cost 36000, 0 days cost 0 and 40 days cost 268000. *)
Theorem progressive_penalty_tiers (days_late : Z)
    (Hnonneg : 0 <= days_late) (Hbound : days_late <= 14411518807598) :
  ∃ penalty,
    calculate_progressive_penalty days_late = inr penalty
    ∧ float_value penalty = Some (charge_days (Z.to_nat days_late))
    ∧ float_value penalty
      = Some (3000 * Z.min days_late 7
              + 5000 * Z.min (Z.max (days_late - 7) 0) 7
              + 7000 * Z.min (Z.max (days_late - 14) 0) 16
              + 10000 * Z.max (days_late - 30) 0)
    ∧ calculate_progressive_penalty 10 = inr 36000%float
    ∧ float_value 36000%float = Some (7 * 3000 + 3 * 5000)
    ∧ calculate_progressive_penalty 0 = inr 0%float
    ∧ float_value 0%float = Some 0
    ∧ calculate_progressive_penalty 40 = inr 268000%float
    ∧ float_value 268000%float = Some (7 * 3000 + 7 * 5000 + 16 * 7000 + 10 * 10000).
Proof.
  destruct (progressive_exact days_late Hbound) as (f & Hrun & Hf).
  apply float_holds_value in Hf. rewrite Z.max_l in Hf by lia.
  exists f. split; [done|]. split; [|split; [done|]].
  - by rewrite charge_days_closed_form, Z2Nat.id.
  - repeat split; vm_compute; reflexivity.
Qed.

Lemma progressive_penalty_tiers_witness :
  ∃ penalty, calculate_progressive_penalty 10 = inr penalty
             ∧ float_value penalty = Some (charge_days (Z.to_nat 10)).
Proof.
  destruct (progressive_penalty_tiers 10) as (penalty & Hrun & Hsum & _); [lia..|].
  by exists penalty.
Defined.

(** C2, beyond that bound.  The accumulator is a binary64 float: at
    14411518807599 days the tier sum 144115188075858000 no longer fits
    its 53 significant bits and the call returns 144115188075857984.0;
    at 2^1024 days the product is too large to convert and the call
    raises [OverflowError]. *)
Theorem progressive_penalty_rounds :
  0 <= 14411518807599
  ∧ calculate_progressive_penalty 14411518807599 = inr 144115188075857984%float
  ∧ float_value 144115188075857984%float = Some 144115188075857984
  ∧ charge_days 40 + 10000 * (14411518807599 - 40) = 144115188075858000
  ∧ tier_total 14411518807599 = 144115188075858000
  ∧ calculate_progressive_penalty (2 ^ 1024) = inl OverflowError.
Proof. repeat split; vm_compute; congruence. Qed.

End ProgressivePenalty.

(** ** The handlers, one outcome per path *)

Section Runs.
Import Routes.

Lemma create_borrowing_run today new_id librarian_id borrowing db :
  create_borrowing today new_id librarian_id borrowing db =
  let book_id := BorrowingCreate.book_id borrowing in
  let member_id := BorrowingCreate.member_id borrowing in
  match books db !! book_id with
  | None => (inl (HTTPException 404 "Kitob topilmadi"), db)
  | Some book =>
    if Book.available_copies book <=? 0
    then (inl (HTTPException 400 "Bu kitobning mavjud nusxalari yo'q"), db)
    else
      match members db !! member_id with
      | None => (inl (HTTPException 404 "A'zo topilmadi"), db)
      | Some member =>
        if negb (Member.is_active member)
        then (inl (HTTPException 400 "Bu a'zo faol emas"), db)
        else
          let unpaid_penalties := or_Z (sum_unpaid member_id db) 0 in
          if 0 <? unpaid_penalties
          then (inl (HTTPException 400
                       ("A'zoning " +:+ pretty unpaid_penalties
                        +:+ " so'm to'lanmagan jarimasi bor")), db)
          else
            match timedelta (BorrowingCreate.days borrowing) with
            | None => (inl OverflowError, db)
            | Some delta =>
              match date_add today delta with
              | None => (inl OverflowError, db)
              | Some due_date =>
                let loan :=
                  Borrowing.mk member_id book_id (Some librarian_id) due_date None
                               borrowed (BorrowingCreate.notes borrowing) in
                (inr loan,
                 mkDB
                   (alter (λ b, Book.set_available_copies (Book.available_copies b - 1) b)
                          book_id (books db))
                   (alter (λ m, Member.set_total_borrowed (Member.total_borrowed m + 1) m)
                          member_id
                      (alter (λ m, Member.set_current_borrowed
                                     (Member.current_borrowed m + 1) m)
                             member_id (members db)))
                   (<[new_id := loan]> (borrowings db))
                   (penalties db))
              end
            end
      end
  end.
Proof.
  unfold create_borrowing. session_unfold. cbn.
  destruct (books db !! BorrowingCreate.book_id borrowing) as [book|]; [|reflexivity].
  destruct (Book.available_copies book <=? 0); [reflexivity|].
  destruct (members db !! BorrowingCreate.member_id borrowing) as [member|]; [|reflexivity].
  destruct (negb (Member.is_active member)); [reflexivity|].
  destruct (0 <? or_Z _ 0); [reflexivity|].
  destruct (timedelta _); [|reflexivity]. cbn.
  destruct (date_add _ _); reflexivity.
Qed.

Lemma return_book_run today new_id borrow_id return_data db :
  return_book today new_id borrow_id return_data db =
  match borrowings db !! borrow_id with
  | None => (inl (HTTPException 404 "Ijara topilmadi"), db)
  | Some b =>
    if bool_decide (Borrowing.status b = returned)
    then (inl (HTTPException 400 "Bu kitob allaqachon qaytarilgan"), db)
    else
      let notes := BorrowingReturn.notes return_data in
      let db1 := with_borrowings (alter (returned_loan today notes) borrow_id) db in
      match books db !! Borrowing.book_id b with
      | None => (inl AttributeError, db1)
      | Some _ =>
        let db2 := with_books
          (alter (λ k, Book.set_available_copies (Book.available_copies k + 1) k)
                 (Borrowing.book_id b)) db1 in
        match members db !! Borrowing.member_id b with
        | None => (inl AttributeError, db2)
        | Some _ =>
          let db3 := with_members
            (alter (λ m, Member.set_current_borrowed (Member.current_borrowed m - 1) m)
                   (Borrowing.member_id b)) db2 in
          (inr (returned_loan today notes b),
           if Borrowing.due_date b <? today
           then with_penalties
                  (insert new_id
                     (Penalty.mk (Borrowing.member_id b) (Some borrow_id)
                        ((today - Borrowing.due_date b) * 5000)
                        (late_reason (today - Borrowing.due_date b))
                        unpaid None None None)) db3
           else db3)
        end
      end
  end.
Proof.
  unfold return_book. session_unfold.
  destruct (borrowings db !! borrow_id) as [b|]; [|reflexivity].
  destruct (bool_decide (Borrowing.status b = returned)); [reflexivity|].
  cbn.
  destruct (books db !! Borrowing.book_id b); [|reflexivity].
  destruct (members db !! Borrowing.member_id b); [|reflexivity].
  destruct (Borrowing.due_date b <? today); reflexivity.
Qed.

Lemma pay_penalty_run today penalty_id payment db :
  pay_penalty today penalty_id payment db =
  match penalties db !! penalty_id with
  | None => (inl (HTTPException 404 "Jarima topilmadi"), db)
  | Some p =>
    if bool_decide (Penalty.status p = paid)
    then (inl (HTTPException 400 "Bu jarima allaqachon to'langan"), db)
    else (inr (paid_penalty today payment p),
          with_penalties (alter (paid_penalty today payment) penalty_id) db)
  end.
Proof.
  unfold pay_penalty. session_unfold.
  destruct (penalties db !! penalty_id) as [p|]; [|reflexivity].
  by destruct (bool_decide (Penalty.status p = paid)).
Qed.

Lemma returned_loan_status today notes b :
  Borrowing.status (returned_loan today notes b) = returned.
Proof. unfold returned_loan. by destruct (truthy_str notes). Qed.

Lemma returned_loan_member today notes b :
  Borrowing.member_id (returned_loan today notes b) = Borrowing.member_id b.
Proof. unfold returned_loan. by destruct (truthy_str notes). Qed.

Lemma returned_loan_book today notes b :
  Borrowing.book_id (returned_loan today notes b) = Borrowing.book_id b.
Proof. unfold returned_loan. by destruct (truthy_str notes). Qed.

(** What an accepted Issue leaves in the store. *)
Lemma create_borrowing_ok today new_id librarian_id borrowing db loan db' :
  request (create_borrowing today new_id librarian_id borrowing) db = (inr loan, db') →
  ∃ book member,
    books db !! BorrowingCreate.book_id borrowing = Some book
    ∧ 0 < Book.available_copies book
    ∧ members db !! BorrowingCreate.member_id borrowing = Some member
    ∧ Member.is_active member = true
    ∧ loan = Borrowing.mk (BorrowingCreate.member_id borrowing)
               (BorrowingCreate.book_id borrowing) (Some librarian_id)
               (today + BorrowingCreate.days borrowing) None borrowed
               (BorrowingCreate.notes borrowing)
    ∧ books db' = <[BorrowingCreate.book_id borrowing :=
                     Book.set_available_copies (Book.available_copies book - 1) book]>
                  (books db)
    ∧ members db' = <[BorrowingCreate.member_id borrowing :=
                       Member.mk (Member.is_active member)
                                 (Member.current_borrowed member + 1)
                                 (Member.total_borrowed member + 1)]> (members db)
    ∧ borrowings db' = <[new_id := loan]> (borrowings db)
    ∧ penalties db' = penalties db.
Proof.
  unfold request. rewrite create_borrowing_run. cbn zeta.
  destruct (books db !! _) as [book|] eqn:Hbook; [|discriminate].
  destruct (Z.leb_spec (Book.available_copies book) 0); [discriminate|].
  destruct (members db !! _) as [member|] eqn:Hmember; [|discriminate].
  destruct (Member.is_active member) eqn:Hact; [|discriminate]. cbn [negb].
  destruct (0 <? _); [discriminate|].
  unfold timedelta, date_add.
  destruct (Z.abs _ <=? _); [|discriminate].
  destruct (_ && _); [|discriminate].
  intros [= <- <-]. exists book, member. repeat (split; [done|]). cbn.
  split; [by erewrite alter_as_insert|]. split; [|done].
  erewrite (alter_as_insert _ _ (members db)) by done.
  erewrite alter_as_insert by apply lookup_insert_eq.
  by rewrite insert_insert_eq.
Qed.

(** What an accepted Return leaves in the store. *)
Lemma return_book_ok today new_id borrow_id return_data db loan db' :
  request (return_book today new_id borrow_id return_data) db = (inr loan, db') →
  ∃ b bk m,
    borrowings db !! borrow_id = Some b
    ∧ Borrowing.status b ≠ returned
    ∧ books db !! Borrowing.book_id b = Some bk
    ∧ members db !! Borrowing.member_id b = Some m
    ∧ loan = returned_loan today (BorrowingReturn.notes return_data) b
    ∧ books db' = <[Borrowing.book_id b :=
                     Book.set_available_copies (Book.available_copies bk + 1) bk]> (books db)
    ∧ members db' = <[Borrowing.member_id b :=
                     Member.set_current_borrowed (Member.current_borrowed m - 1) m]>
                    (members db)
    ∧ borrowings db' = <[borrow_id := loan]> (borrowings db)
    ∧ penalties db' =
        if Borrowing.due_date b <? today
        then <[new_id := Penalty.mk (Borrowing.member_id b) (Some borrow_id)
                           ((today - Borrowing.due_date b) * 5000)
                           (late_reason (today - Borrowing.due_date b))
                           unpaid None None None]> (penalties db)
        else penalties db.
Proof.
  unfold request. rewrite return_book_run.
  destruct (borrowings db !! borrow_id) as [b|] eqn:Hb; [|discriminate].
  case_bool_decide as Hst; [discriminate|]. cbn zeta.
  destruct (books db !! Borrowing.book_id b) as [bk|] eqn:Hbk; [|discriminate].
  destruct (members db !! Borrowing.member_id b) as [m|] eqn:Hm; [|discriminate].
  intros [= <- <-]. exists b, bk, m. repeat (split; [done|]).
  destruct (Borrowing.due_date b <? today); cbn;
    by erewrite !alter_as_insert by done.
Qed.

(** A Return of an open loan whose book and member rows exist goes
    through. *)
Lemma return_book_succeeds today new_id borrow_id return_data db b bk m :
  borrowings db !! borrow_id = Some b →
  Borrowing.status b ≠ returned →
  books db !! Borrowing.book_id b = Some bk →
  members db !! Borrowing.member_id b = Some m →
  ∃ db', request (return_book today new_id borrow_id return_data) db
         = (inr (returned_loan today (BorrowingReturn.notes return_data) b), db').
Proof.
  intros Hb Hst Hbk Hm. unfold request. rewrite return_book_run, Hb.
  rewrite bool_decide_eq_false_2 by done. cbn zeta. rewrite Hbk, Hm. eauto.
Qed.

(** Every rejection of an Issue comes before its first assignment. *)
Lemma create_borrowing_rejection today new_id librarian_id borrowing db e db' :
  create_borrowing today new_id librarian_id borrowing db = (inl e, db') → db' = db.
Proof.
  rewrite create_borrowing_run. cbn zeta.
  destruct (books db !! _) as [book|]; [|congruence].
  destruct (_ <=? 0); [congruence|].
  destruct (members db !! _) as [member|]; [|congruence].
  destruct (negb _); [congruence|].
  destruct (0 <? _); [congruence|].
  destruct (timedelta _); [|congruence].
  destruct (date_add _ _); [discriminate|congruence].
Qed.

(** The exceptions an Issue can end in. *)
Lemma create_borrowing_errors today new_id librarian_id borrowing db e db' :
  create_borrowing today new_id librarian_id borrowing db = (inl e, db') →
  e = HTTPException 404 "Kitob topilmadi"
  ∨ e = HTTPException 400 "Bu kitobning mavjud nusxalari yo'q"
  ∨ e = HTTPException 404 "A'zo topilmadi"
  ∨ e = HTTPException 400 "Bu a'zo faol emas"
  ∨ e = HTTPException 400
          ("A'zoning "
           +:+ pretty (or_Z (sum_unpaid (BorrowingCreate.member_id borrowing) db) 0)
           +:+ " so'm to'lanmagan jarimasi bor")
  ∨ (e = OverflowError
     ∧ ¬ (Z.abs (BorrowingCreate.days borrowing) <= 999999999
          ∧ 1 <= today + BorrowingCreate.days borrowing <= 3652059)).
Proof.
  rewrite create_borrowing_run. cbn zeta.
  destruct (books db !! _) as [book|]; [|intros [= <- _]; auto].
  destruct (_ <=? 0); [intros [= <- _]; auto|].
  destruct (members db !! _) as [member|]; [|intros [= <- _]; auto].
  destruct (negb _); [intros [= <- _]; auto|].
  destruct (0 <? _); [intros [= <- _]; auto 6|].
  unfold timedelta, date_add.
  destruct (Z.leb_spec (Z.abs (BorrowingCreate.days borrowing)) 999999999);
    [|intros [= <- _]; do 5 right; split; [done|lia]].
  destruct (Z.leb_spec 1 (today + BorrowingCreate.days borrowing));
    destruct (Z.leb_spec (today + BorrowingCreate.days borrowing) 3652059); cbn;
    try discriminate; intros [= <- _]; do 5 right; (split; [done|lia]).
Qed.

End Runs.

(** ** The eligibility checker *)

Section EligibilityChecker.
Import Eligibility Rules.



End EligibilityChecker.

(** ** Issue *)

Section Issue.
Import Eligibility Routes Rules Invariants Fixtures.

Lemma no_unpaid_no_sum member_id db :
  count_unpaid member_id db = 0 → sum_unpaid member_id db = None.
Proof.
  unfold count_unpaid, sum_unpaid, sum_amount. intros Hc.
  rewrite bool_decide_eq_true_2; [done|lia].
Qed.

(** Whatever the checker allows, the handler accepts, as long as the due
    date is a date. *)
Lemma allowed_then_issued today new_id librarian_id borrowing db :
  can_borrow_book (BorrowingCreate.member_id borrowing)
                  (BorrowingCreate.book_id borrowing) db = (inr (true, None), db) →
  Z.abs (BorrowingCreate.days borrowing) <= 999999999 →
  1 <= today + BorrowingCreate.days borrowing <= 3652059 →
  ∃ loan db',
    request (create_borrowing today new_id librarian_id borrowing) db = (inr loan, db').
Proof.
  intros Hallowed Hdelta Hdate.
  unfold request. rewrite create_borrowing_run. cbn zeta.
  revert Hallowed. unfold can_borrow_book. session_unfold.
  destruct (members db !! _) as [member|]; [|discriminate].
  destruct (Member.is_active member); [|discriminate]. cbn [negb].
  destruct (books db !! _) as [book|]; [|discriminate].
  destruct (Book.is_active book); [|discriminate]. cbn [negb].
  destruct (Book.available_copies book <=? 0); [discriminate|].
  destruct (Z.ltb_spec 0 (count_unpaid (BorrowingCreate.member_id borrowing) db))
    as [|Hnone]; [discriminate|].
  intros _.
  rewrite no_unpaid_no_sum by (unfold count_unpaid in *; lia). cbn.
  unfold timedelta, date_add.
  destruct (Z.leb_spec (Z.abs (BorrowingCreate.days borrowing)) 999999999); [|lia].
  destruct (Z.leb_spec 1 (today + BorrowingCreate.days borrowing)); [|lia].
  destruct (Z.leb_spec (today + BorrowingCreate.days borrowing) 3652059); [|lia].
  cbn. eauto.
Qed.

(** C1, as the code has it.  The handler does not consult the checker and
    its own tests leave two of the rules out.  A member with five open
    loans (a store where every counter agrees with the loans) is refused by
    [can_borrow_book] with the cap as reason, and is issued a sixth loan by
    [create_borrowing]; a book withdrawn from circulation is refused by
    [can_borrow_book], and lent by [create_borrowing]. *)
Theorem issue_skips_cap_and_withdrawal :
  (member_invariant db_at_cap ∧ ledger_invariant db_at_cap
   ∧ can_borrow_book "m1" "b1" db_at_cap
     = (inr (false, Some "A'zo maksimal 5 ta kitobgacha ola oladi"), db_at_cap)
   ∧ ∃ loan db',
       request (create_borrowing today0 "l6" "lib1" (borrow_data 14)) db_at_cap
       = (inr loan, db')
       ∧ borrowings db' !! "l6" = Some loan
       ∧ members db' !! "m1" = Some (Member.mk true 6 6))
  ∧ (can_borrow_book "m1" "b1" db_withdrawn
     = (inr (false, Some "Kitob faol emas"), db_withdrawn)
     ∧ ∃ loan db',
         request (create_borrowing today0 "l1" "lib1" (borrow_data 14)) db_withdrawn
         = (inr loan, db')
         ∧ borrowings db' !! "l1" = Some loan
         ∧ books db' !! "b1" = Some (Book.mk 1 0 false)).
Proof.
  split.
  - split; [apply (bool_decide_unpack _); vm_compute; exact I|].
    split; [apply (bool_decide_unpack _); vm_compute; exact I|].
    split; [vm_compute; reflexivity|].
    eexists _, _. repeat split; vm_compute; reflexivity.
  - split; [vm_compute; reflexivity|].
    eexists _, _. repeat split; vm_compute; reflexivity.
Qed.

(** The refusal over unpaid penalties quotes their summed amount: with one
    unpaid penalty of 5000 the message carries 5000 and nowhere the
    count 1. *)
Lemma unpaid_rejection_cites_amount :
  count_unpaid "m1" db_unpaid = 1
  ∧ sum_unpaid "m1" db_unpaid = Some 5000
  ∧ create_borrowing today0 "l1" "lib1" (borrow_data 14) db_unpaid
    = (inl (HTTPException 400 "A'zoning 5000 so'm to'lanmagan jarimasi bor"), db_unpaid)
  ∧ cites 1 "A'zoning 5000 so'm to'lanmagan jarimasi bor" = false
  ∧ cites 5000 "A'zoning 5000 so'm to'lanmagan jarimasi bor" = true.
Proof. repeat split; vm_compute; reflexivity. Qed.

(** C7, amended.  A rejected Issue changes nothing: the exception is
    raised from the very session state the handler started in, so no
    Borrowing is added and the book's and the member's counters are as
    before.  A book without an available copy is refused with status 400;
    a member whose unpaid penalties sum to a positive amount is refused
    with status 400 and a reason that quotes that sum in so'm. *)
Theorem rejected_issue_changes_nothing today new_id librarian_id borrowing db :
  let book_id := BorrowingCreate.book_id borrowing in
  let member_id := BorrowingCreate.member_id borrowing in
  let issue := create_borrowing today new_id librarian_id borrowing in
  (∀ e db', issue db = (inl e, db') →
     db' = db ∧ request issue db = (inl e, db)
     ∧ borrowings db' = borrowings db
     ∧ books db' !! book_id = books db !! book_id
     ∧ members db' !! member_id = members db !! member_id)
  ∧ (∀ book, books db !! book_id = Some book →
       Book.available_copies book <= 0 →
       issue db = (inl (HTTPException 400 "Bu kitobning mavjud nusxalari yo'q"), db))
  ∧ (∀ book member unpaid_total,
       books db !! book_id = Some book → 0 < Book.available_copies book →
       members db !! member_id = Some member → Member.is_active member = true →
       sum_unpaid member_id db = Some unpaid_total → 0 < unpaid_total →
       issue db
       = (inl (HTTPException 400
                 ("A'zoning " +:+ pretty unpaid_total
                  +:+ " so'm to'lanmagan jarimasi bor")), db)).
Proof.
  cbn zeta. split; [|split].
  - intros e db' Hrun.
    assert (db' = db) as -> by (by eapply create_borrowing_rejection).
    repeat split. unfold request. by rewrite Hrun.
  - intros book Hbook Hav. rewrite create_borrowing_run. cbn zeta. rewrite Hbook.
    by destruct (Z.leb_spec (Book.available_copies book) 0); [|lia].
  - intros book member total Hbook Hav Hmember Hact Hsum Hpos.
    rewrite create_borrowing_run. cbn zeta. rewrite Hbook, Hmember, Hact, Hsum.
    destruct (Z.leb_spec (Book.available_copies book) 0); [lia|]. cbn.
    destruct (Z.eqb_spec total 0); [lia|].
    by destruct (Z.ltb_spec 0 total); [|lia].
Qed.

Lemma rejected_issue_changes_nothing_witness :
  request (create_borrowing today0 "l1" "lib1" (borrow_data 14)) db_unavailable
  = (inl (HTTPException 400 "Bu kitobning mavjud nusxalari yo'q"), db_unavailable)
  ∧ request (create_borrowing today0 "l1" "lib1" (borrow_data 14)) db_unpaid
    = (inl (HTTPException 400 "A'zoning 5000 so'm to'lanmagan jarimasi bor"), db_unpaid).
Proof.
  pose proof (rejected_issue_changes_nothing today0 "l1" "lib1" (borrow_data 14)
                db_unavailable) as (Hsame & Hnone & _).
  pose proof (rejected_issue_changes_nothing today0 "l1" "lib1" (borrow_data 14)
                db_unpaid) as (Hsame' & _ & Hunpaid).
  cbn zeta in *. split.
  - apply (Hsame _ db_unavailable). apply (Hnone (Book.mk 0 0 true)).
    + vm_compute; reflexivity.
    + vm_compute; discriminate.
  - apply (Hsame' _ db_unpaid). apply (Hunpaid test_book test_member 5000).
    all: vm_compute; reflexivity.
Defined.

(** A loan period of zero days, or of minus three, is issued like any
    other. *)
Lemma nonpositive_days_accepted :
  BorrowingCreate.days (borrow_data 0) <= 0
  ∧ BorrowingCreate.days (borrow_data (-3)) <= 0
  ∧ (∃ db', request (create_borrowing today0 "l1" "lib1" (borrow_data 0)) db_fresh
            = (inr (Borrowing.mk "m1" "b1" (Some "lib1") today0 None borrowed None), db')
            ∧ borrowings db' !! "l1"
              = Some (Borrowing.mk "m1" "b1" (Some "lib1") today0 None borrowed None))
  ∧ (∃ db', request (create_borrowing today0 "l1" "lib1" (borrow_data (-3))) db_fresh
            = (inr (Borrowing.mk "m1" "b1" (Some "lib1") (today0 - 3) None borrowed None),
               db')
            ∧ borrowings db' !! "l1"
              = Some (Borrowing.mk "m1" "b1" (Some "lib1") (today0 - 3) None borrowed None)).
Proof.
  split; [vm_compute; discriminate|]. split; [vm_compute; discriminate|].
  split; eexists; split; vm_compute; reflexivity.
Qed.

(** C9, amended.  [create_borrowing] does not look at the sign of the loan
    period: when the book has a copy, the member is active and owes
    nothing, a non-positive number of days (one for which today + days is
    still a date) is accepted, and the Borrowing is created in status
    [borrowed] with [due_date] = today + days, which is not after today. *)
Theorem loan_days_unchecked today new_id librarian_id borrowing db book member
    (Hdays : BorrowingCreate.days borrowing <= 0)
    (Hdelta : -999999999 <= BorrowingCreate.days borrowing)
    (Hdate : 1 <= today + BorrowingCreate.days borrowing <= 3652059)
    (Hbook : books db !! BorrowingCreate.book_id borrowing = Some book)
    (Hcopies : 0 < Book.available_copies book)
    (Hmember : members db !! BorrowingCreate.member_id borrowing = Some member)
    (Hactive : Member.is_active member = true)
    (Hunpaid : or_Z (sum_unpaid (BorrowingCreate.member_id borrowing) db) 0 <= 0) :
  ∃ loan db',
    request (create_borrowing today new_id librarian_id borrowing) db = (inr loan, db')
    ∧ borrowings db' !! new_id = Some loan
    ∧ Borrowing.status loan = borrowed
    ∧ Borrowing.due_date loan = today + BorrowingCreate.days borrowing
    ∧ Borrowing.due_date loan <= today.
Proof.
  unfold request. rewrite create_borrowing_run. cbn zeta.
  rewrite Hbook, Hmember, Hactive. cbn [negb].
  destruct (Z.leb_spec (Book.available_copies book) 0); [lia|].
  destruct (Z.ltb_spec 0 (or_Z (sum_unpaid (BorrowingCreate.member_id borrowing) db) 0));
    [lia|].
  unfold timedelta, date_add.
  destruct (Z.leb_spec (Z.abs (BorrowingCreate.days borrowing)) 999999999); [|lia].
  destruct (Z.leb_spec 1 (today + BorrowingCreate.days borrowing)); [|lia].
  destruct (Z.leb_spec (today + BorrowingCreate.days borrowing) 3652059); [|lia].
  cbn. eexists _, _. split; [reflexivity|]. cbn.
  rewrite lookup_insert_eq. repeat split. lia.
Qed.

Lemma loan_days_unchecked_witness :
  ∃ loan db',
    request (create_borrowing today0 "l1" "lib1" (borrow_data (-3))) db_fresh
    = (inr loan, db')
    ∧ Borrowing.due_date loan = today0 + -3.
Proof.
  destruct (loan_days_unchecked today0 "l1" "lib1" (borrow_data (-3)) db_fresh
              test_book test_member)
    as (loan & db' & Hrun & _ & _ & Hdue & _).
  - vm_compute; discriminate.
  - vm_compute; discriminate.
  - split; vm_compute; discriminate.
  - vm_compute; reflexivity.
  - vm_compute; reflexivity.
  - vm_compute; reflexivity.
  - vm_compute; reflexivity.
  - vm_compute; discriminate.
  - exists loan, db'. split; [exact Hrun | exact Hdue].
Defined.

End Issue.

(** ** Return *)

Section Return.
Import Routes Fixtures.

(** C4. A Return fails with status 404 exactly when no loan has the given
    identity, and with status 400 exactly when the loan is already
    [returned].  After a Return that went through, any further Return of
    the same loan raises the 400 "already returned" error and leaves the
    store, and so the status [returned], as it was: it is never accepted
    in silence. *)
Theorem return_book_failures today new_id borrow_id return_data db :
  ((∃ e, (request (return_book today new_id borrow_id return_data) db).1 = inl e
         ∧ is_NotFound e = true)
   ↔ borrowings db !! borrow_id = None)
  ∧ ((∃ e, (request (return_book today new_id borrow_id return_data) db).1 = inl e
           ∧ is_Conflict e = true)
     ↔ ∃ b, borrowings db !! borrow_id = Some b ∧ Borrowing.status b = returned)
  ∧ (∀ loan db',
       request (return_book today new_id borrow_id return_data) db = (inr loan, db') →
       ∀ today2 new_id2 return_data2,
         let second := return_book today2 new_id2 borrow_id return_data2 in
         second db' = (inl (HTTPException 400 "Bu kitob allaqachon qaytarilgan"), db')
         ∧ request second db'
           = (inl (HTTPException 400 "Bu kitob allaqachon qaytarilgan"), db')
         ∧ is_Conflict (HTTPException 400 "Bu kitob allaqachon qaytarilgan") = true
         ∧ Borrowing.status <$> borrowings db' !! borrow_id = Some returned).
Proof.
  split; [|split].
  - unfold request. rewrite return_book_run.
    destruct (borrowings db !! borrow_id) as [b|] eqn:Hb.
    + split; [|discriminate]. intros (e & He & Hk). exfalso.
      case_bool_decide; cbn zeta in He.
      * cbn in He. injection He as <-. discriminate.
      * destruct (books db !! _); [destruct (members db !! _)|]; cbn in He;
          try discriminate; injection He as <-; discriminate.
    + split; [done|]. intros _. eexists. split; reflexivity.
  - unfold request. rewrite return_book_run.
    destruct (borrowings db !! borrow_id) as [b|] eqn:Hb.
    + case_bool_decide as Hst; cbn zeta.
      * split; [eauto|]. intros _. eexists. split; reflexivity.
      * split; [|intros (b' & [= <-] & Hr); done].
        intros (e & He & Hk). exfalso.
        destruct (books db !! _); [destruct (members db !! _)|]; cbn in He;
          try discriminate; injection He as <-; discriminate.
    + split; [|intros (b' & [=] & _)].
      intros (e & He & Hk). cbn in He. injection He as <-. discriminate.
  - intros loan db' Hok today2 new_id2 return_data2.
    apply return_book_ok in Hok
      as (b & bk & m & Hb & Hst & Hbk & Hm & -> & _ & _ & Hloans & _).
    assert (Hrow : borrowings db' !! borrow_id
                   = Some (returned_loan today (BorrowingReturn.notes return_data) b))
      by (rewrite Hloans; apply lookup_insert_eq).
    assert (Hsecond :
              return_book today2 new_id2 borrow_id return_data2 db'
              = (inl (HTTPException 400 "Bu kitob allaqachon qaytarilgan"), db')).
    { rewrite return_book_run, Hrow.
      by rewrite bool_decide_eq_true_2 by apply returned_loan_status. }
    cbn zeta. split; [done|]. split; [by unfold request; rewrite Hsecond|].
    split; [done|]. rewrite Hrow. cbn. by rewrite returned_loan_status.
Qed.

Lemma return_book_failures_witness :
  request (return_book (today0 + 14) "p1" "l1" (BorrowingReturn.mk None)) db_loaned
  = (inr (Borrowing.mk "m1" "b1" (Some "lib1") (today0 + 14)
                       (Some (today0 + 14)) returned None), db_returned)
  ∧ request (return_book (today0 + 15) "p2" "l1" (BorrowingReturn.mk None)) db_returned
    = (inl (HTTPException 400 "Bu kitob allaqachon qaytarilgan"), db_returned)
  ∧ Borrowing.status <$> borrowings db_returned !! "l1" = Some returned.
Proof.
  assert (Hfirst : request (return_book (today0 + 14) "p1" "l1" (BorrowingReturn.mk None))
                     db_loaned
                   = (inr (Borrowing.mk "m1" "b1" (Some "lib1") (today0 + 14)
                                        (Some (today0 + 14)) returned None), db_returned))
    by (vm_compute; reflexivity).
  split; [exact Hfirst|].
  pose proof (return_book_failures (today0 + 14) "p1" "l1" (BorrowingReturn.mk None)
                db_loaned) as (_ & _ & Htwice).
  destruct (Htwice _ db_returned Hfirst (today0 + 15) "p2" (BorrowingReturn.mk None))
    as (_ & Hreq & _ & Hst).
  split; [exact Hreq | exact Hst].
Defined.

(** C3. For a loan that exists and is not yet returned (its book and its
    member being rows of the store, and the new penalty's key being
    unused), Return goes through and adds a Penalty exactly when
    max(0, today - due_date) is positive; the Penalty then carries the
    amount days_late * 5000 and the status [unpaid], so five days past due
    give 25000, and a return on or before the due date adds none. *)
Theorem return_book_penalty today new_id borrow_id return_data db b bk m
    (Hloan : borrowings db !! borrow_id = Some b)
    (Hopen : Borrowing.status b ≠ returned)
    (Hbook : books db !! Borrowing.book_id b = Some bk)
    (Hmember : members db !! Borrowing.member_id b = Some m)
    (Hfresh : penalties db !! new_id = None) :
  let days_late := Z.max 0 (today - Borrowing.due_date b) in
  ∃ loan db',
    request (return_book today new_id borrow_id return_data) db = (inr loan, db')
    ∧ (0 < days_late ↔ penalties db' ≠ penalties db)
    ∧ (0 < days_late →
       penalties db'
       = <[new_id := Penalty.mk (Borrowing.member_id b) (Some borrow_id)
                       (days_late * 5000) (late_reason days_late)
                       unpaid None None None]> (penalties db))
    ∧ (today - Borrowing.due_date b = 5 →
       ∃ p, penalties db' !! new_id = Some p
            ∧ Penalty.amount p = 25000 ∧ Penalty.status p = unpaid)
    ∧ (today <= Borrowing.due_date b → penalties db' = penalties db).
Proof.
  intros days_late.
  destruct (return_book_succeeds today new_id borrow_id return_data db b bk m)
    as [db' Hrun]; [done..|].
  eexists _, db'. split; [exact Hrun|].
  apply return_book_ok in Hrun
    as (b' & bk' & m' & Hb' & _ & _ & _ & _ & _ & _ & _ & Hpen).
  assert (b' = b) as -> by congruence.
  subst days_late.
  destruct (Z.ltb_spec (Borrowing.due_date b) today) as [Hlate|Hnot].
  - rewrite Z.max_r by lia. rewrite Hpen. repeat split.
    + intros _ Heq.
      assert (Hl : <[new_id := Penalty.mk (Borrowing.member_id b) (Some borrow_id)
                      ((today - Borrowing.due_date b) * 5000)
                      (late_reason (today - Borrowing.due_date b))
                      unpaid None None None]> (penalties db) !! new_id = None)
        by (rewrite Heq; exact Hfresh).
      rewrite lookup_insert_eq in Hl. discriminate.
    + lia.
    + intros H5. rewrite H5. eexists. rewrite lookup_insert_eq. done.
    + lia.
  - rewrite Z.max_l by lia. rewrite Hpen. repeat split; try done; lia.
Qed.

Lemma return_book_penalty_witness :
  ∃ loan db',
    request (return_book (today0 + 19) "p1" "l1" (BorrowingReturn.mk None)) db_loaned
    = (inr loan, db')
    ∧ ∃ p, penalties db' !! "p1" = Some p
           ∧ Penalty.amount p = 25000 ∧ Penalty.status p = unpaid.
Proof.
  destruct (return_book_penalty (today0 + 19) "p1" "l1" (BorrowingReturn.mk None)
              db_loaned
              (Borrowing.mk "m1" "b1" (Some "lib1") (today0 + 14) None borrowed None)
              (Book.mk 5 4 true) (Member.mk true 1 1))
    as (loan & db' & Hrun & _ & _ & Hfive & _).
  - vm_compute; reflexivity.
  - discriminate.
  - vm_compute; reflexivity.
  - vm_compute; reflexivity.
  - vm_compute; reflexivity.
  - exists loan, db'. split; [exact Hrun|]. apply Hfive. reflexivity.
Defined.

End Return.

(** ** Store invariants across Issue and Return *)

Section StoreInvariants.
Import Routes Invariants Fixtures.

Lemma not_returned_open b : Borrowing.status b ≠ returned → open_loan b.
Proof. unfold open_loan. destruct (Borrowing.status b); auto. done. Qed.

Lemma returned_not_open b : Borrowing.status b = returned → ¬ open_loan b.
Proof. unfold open_loan. intros ->. intros [|]; discriminate. Qed.

Lemma issue_member_invariant today new_id librarian_id borrowing db loan db' :
  member_invariant db →
  borrowings db !! new_id = None →
  request (create_borrowing today new_id librarian_id borrowing) db = (inr loan, db') →
  member_invariant db'.
Proof.
  intros Hinv Hfresh Hrun.
  apply create_borrowing_ok in Hrun
    as (book & member & Hbook & Hav & Hmember & Hact & Hloan & _ & Hmem & Hloans & _).
  unfold member_invariant, open_loans_of_member in *.
  rewrite Hmem, Hloans. intros k x Hk.
  rewrite size_filter_insert, (delete_id _ _ Hfresh).
  destruct (decide (BorrowingCreate.member_id borrowing = k)) as [<-|Hne].
  - rewrite lookup_insert_eq in Hk. injection Hk as <-. cbn.
    specialize (Hinv _ _ Hmember). cbn in Hinv.
    rewrite decide_True; [lia|]. subst loan. split; [done|by left].
  - rewrite lookup_insert_ne in Hk by done.
    specialize (Hinv _ _ Hk). cbn in Hinv.
    rewrite decide_False; [done|]. subst loan. intros [? _]. done.
Qed.

Lemma return_member_invariant today new_id borrow_id return_data db loan db' :
  member_invariant db →
  request (return_book today new_id borrow_id return_data) db = (inr loan, db') →
  member_invariant db'.
Proof.
  intros Hinv Hrun.
  apply return_book_ok in Hrun
    as (b & bk & m & Hb & Hst & Hbk & Hm & -> & _ & Hmem & Hloans & _).
  unfold member_invariant, open_loans_of_member in *.
  rewrite Hmem, Hloans. intros k x Hk.
  rewrite size_filter_insert.
  rewrite decide_False
    by (intros [_ Ho]; revert Ho; apply returned_not_open, returned_loan_status).
  destruct (decide (Borrowing.member_id b = k)) as [<-|Hne].
  - rewrite lookup_insert_eq in Hk. injection Hk as <-. cbn.
    specialize (Hinv _ _ Hm). cbn in Hinv.
    rewrite (size_filter_lookup _ _ _ _ Hb) in Hinv.
    rewrite decide_True in Hinv by (split; [done|by apply not_returned_open]).
    lia.
  - rewrite lookup_insert_ne in Hk by done.
    specialize (Hinv _ _ Hk). cbn in Hinv.
    rewrite (size_filter_lookup _ _ _ _ Hb) in Hinv.
    rewrite decide_False in Hinv by (intros [? _]; done).
    done.
Qed.

(** An Issue that passes every check of the handler is accepted. *)
Lemma create_borrowing_succeeds today new_id librarian_id borrowing db book member :
  books db !! BorrowingCreate.book_id borrowing = Some book →
  0 < Book.available_copies book →
  members db !! BorrowingCreate.member_id borrowing = Some member →
  Member.is_active member = true →
  or_Z (sum_unpaid (BorrowingCreate.member_id borrowing) db) 0 <= 0 →
  Z.abs (BorrowingCreate.days borrowing) <= 999999999 →
  1 <= today + BorrowingCreate.days borrowing <= 3652059 →
  ∃ loan db',
    request (create_borrowing today new_id librarian_id borrowing) db = (inr loan, db').
Proof.
  intros Hbook Hav Hmem Hact Hsum Hdelta Hdate.
  unfold request. rewrite create_borrowing_run. cbn zeta.
  rewrite Hbook, Hmem, Hact. cbn [negb].
  destruct (Z.leb_spec (Book.available_copies book) 0); [lia|].
  destruct (Z.ltb_spec 0 (or_Z (sum_unpaid (BorrowingCreate.member_id borrowing) db) 0));
    [lia|].
  unfold timedelta, date_add.
  destruct (Z.leb_spec (Z.abs (BorrowingCreate.days borrowing)) 999999999); [|lia].
  destruct (Z.leb_spec 1 (today + BorrowingCreate.days borrowing)); [|lia].
  destruct (Z.leb_spec (today + BorrowingCreate.days borrowing) 3652059); [|lia].
  cbn. eauto.
Qed.

(** C6. In a store where every member's [current_borrowed] equals the
    number of that member's loans with status in {borrowed, late}: an
    Issue that passes the handler's checks is accepted, adds a loan in
    status [borrowed] under the new key and raises the borrower's
    [current_borrowed], and the number of the borrower's open loans, by
    one; the Return of an open loan is accepted, leaves the loan in status
    [returned] and lowers both by one; and the equality holds again after
    any Issue (the new row taking an unused key) and any Return, whatever
    their outcome. *)
Theorem current_borrowed_counts_open_loans db (Hinv : member_invariant db) :
  (∀ today new_id librarian_id borrowing book member,
     borrowings db !! new_id = None →
     books db !! BorrowingCreate.book_id borrowing = Some book →
     0 < Book.available_copies book →
     members db !! BorrowingCreate.member_id borrowing = Some member →
     Member.is_active member = true →
     or_Z (sum_unpaid (BorrowingCreate.member_id borrowing) db) 0 <= 0 →
     Z.abs (BorrowingCreate.days borrowing) <= 999999999 →
     1 <= today + BorrowingCreate.days borrowing <= 3652059 →
     ∃ loan db',
       request (create_borrowing today new_id librarian_id borrowing) db = (inr loan, db')
       ∧ borrowings db' = <[new_id := loan]> (borrowings db)
       ∧ Borrowing.status loan = borrowed
       ∧ Borrowing.member_id loan = BorrowingCreate.member_id borrowing
       ∧ Member.current_borrowed <$> members db' !! BorrowingCreate.member_id borrowing
         = Some (Member.current_borrowed member + 1)
       ∧ Z.of_nat (open_loans_of_member (BorrowingCreate.member_id borrowing) db')
         = Z.of_nat (open_loans_of_member (BorrowingCreate.member_id borrowing) db) + 1
       ∧ member_invariant db')
  ∧ (∀ today new_id borrow_id return_data b bk m,
       borrowings db !! borrow_id = Some b →
       Borrowing.status b ≠ returned →
       books db !! Borrowing.book_id b = Some bk →
       members db !! Borrowing.member_id b = Some m →
       ∃ loan db',
         request (return_book today new_id borrow_id return_data) db = (inr loan, db')
         ∧ borrowings db' = <[borrow_id := loan]> (borrowings db)
         ∧ Borrowing.status loan = returned
         ∧ Borrowing.member_id loan = Borrowing.member_id b
         ∧ Member.current_borrowed <$> members db' !! Borrowing.member_id b
           = Some (Member.current_borrowed m - 1)
         ∧ Z.of_nat (open_loans_of_member (Borrowing.member_id b) db')
           = Z.of_nat (open_loans_of_member (Borrowing.member_id b) db) - 1
         ∧ member_invariant db')
  ∧ (∀ today new_id librarian_id borrowing outcome db',
     borrowings db !! new_id = None →
     request (create_borrowing today new_id librarian_id borrowing) db = (outcome, db') →
     member_invariant db')
  ∧ (∀ today new_id librarian_id borrowing loan db',
       borrowings db !! new_id = None →
       request (create_borrowing today new_id librarian_id borrowing) db = (inr loan, db') →
       borrowings db' !! new_id = Some loan
       ∧ Borrowing.status loan = borrowed
       ∧ ∃ m, members db !! Borrowing.member_id loan = Some m
              ∧ Member.current_borrowed <$> members db' !! Borrowing.member_id loan
                = Some (Member.current_borrowed m + 1))
  ∧ (∀ today new_id borrow_id return_data outcome db',
       request (return_book today new_id borrow_id return_data) db = (outcome, db') →
       member_invariant db')
  ∧ (∀ today new_id borrow_id return_data loan db',
       request (return_book today new_id borrow_id return_data) db = (inr loan, db') →
       Borrowing.status <$> borrowings db' !! borrow_id = Some returned
       ∧ ∃ m, members db !! Borrowing.member_id loan = Some m
              ∧ Member.current_borrowed <$> members db' !! Borrowing.member_id loan
                = Some (Member.current_borrowed m - 1)).
Proof.
  split; [|split; [|split; [|split; [|split]]]].
  - intros today new_id librarian_id borrowing book member Hfresh Hbook Hav Hmem Hact
           Hsum Hdelta Hdate.
    destruct (create_borrowing_succeeds today new_id librarian_id borrowing db book member)
      as (loan & db' & Hrun); [done..|].
    exists loan, db'. split; [done|].
    pose proof (issue_member_invariant _ _ _ _ _ _ _ Hinv Hfresh Hrun) as Hinv'.
    apply create_borrowing_ok in Hrun
      as (book' & member' & _ & _ & Hm & _ & Hloan & _ & Hmembers & Hloans & _).
    assert (member' = member) as -> by congruence.
    assert (Hcb : Member.current_borrowed <$> members db' !! BorrowingCreate.member_id borrowing
                  = Some (Member.current_borrowed member + 1))
      by (by rewrite Hmembers, lookup_insert_eq).
    split; [done|]. split; [by subst loan|]. split; [by subst loan|].
    split; [done|]. split; [|done].
    destruct (members db' !! BorrowingCreate.member_id borrowing) as [m'|] eqn:Hm';
      [|discriminate].
    rewrite <-(Hinv' _ _ Hm'), <-(Hinv _ _ Hm). cbn in Hcb. congruence.
  - intros today new_id borrow_id return_data b bk m Hb Hst Hbk Hm.
    destruct (return_book_succeeds today new_id borrow_id return_data db b bk m)
      as (db' & Hrun); [done..|].
    eexists _, db'. split; [done|].
    pose proof (return_member_invariant _ _ _ _ _ _ _ Hinv Hrun) as Hinv'.
    apply return_book_ok in Hrun
      as (b' & bk' & m' & Hb' & _ & _ & Hm'' & _ & _ & Hmembers & Hloans & _).
    assert (b' = b) as -> by congruence. assert (m' = m) as -> by congruence.
    assert (Hcb : Member.current_borrowed <$> members db' !! Borrowing.member_id b
                  = Some (Member.current_borrowed m - 1))
      by (by rewrite Hmembers, lookup_insert_eq).
    split; [done|]. split; [apply returned_loan_status|].
    split; [apply returned_loan_member|]. split; [done|]. split; [|done].
    destruct (members db' !! Borrowing.member_id b) as [m1|] eqn:Hm1; [|discriminate].
    rewrite <-(Hinv' _ _ Hm1), <-(Hinv _ _ Hm). cbn in Hcb. congruence.
  - intros today new_id librarian_id borrowing [e|loan] db' Hfresh Hrun.
    + by rewrite (request_failure _ _ _ _ Hrun).
    + by eapply issue_member_invariant.
  - intros today new_id librarian_id borrowing loan db' Hfresh Hrun.
    apply create_borrowing_ok in Hrun
      as (book & member & _ & _ & Hm & _ & -> & _ & -> & -> & _). cbn.
    split; [apply lookup_insert_eq|]. split; [done|].
    exists member. split; [done|]. by rewrite lookup_insert_eq.
  - intros today new_id borrow_id return_data [e|loan] db' Hrun.
    + by rewrite (request_failure _ _ _ _ Hrun).
    + by eapply return_member_invariant.
  - intros today new_id borrow_id return_data loan db' Hrun.
    apply return_book_ok in Hrun
      as (b & bk & m & _ & _ & _ & Hm & -> & _ & -> & -> & _).
    split; [rewrite lookup_insert_eq; cbn; by rewrite returned_loan_status|].
    rewrite returned_loan_member. exists m. split; [done|].
    by rewrite lookup_insert_eq.
Qed.

Lemma current_borrowed_counts_open_loans_witness :
  member_invariant db_fresh
  ∧ (∃ loan db',
       request (create_borrowing today0 "l1" "lib1" (borrow_data 14)) db_fresh
       = (inr loan, db')
       ∧ db' = db_loaned
       ∧ Borrowing.status loan = borrowed
       ∧ Member.current_borrowed <$> members db' !! "m1" = Some 1
       ∧ member_invariant db')
  ∧ member_invariant db_loaned
  ∧ (∃ loan db',
       request (return_book (today0 + 14) "p1" "l1" (BorrowingReturn.mk None)) db_loaned
       = (inr loan, db')
       ∧ db' = db_returned
       ∧ Borrowing.status loan = returned
       ∧ Member.current_borrowed <$> members db' !! "m1" = Some 0
       ∧ member_invariant db').
Proof.
  assert (Hfresh : member_invariant db_fresh)
    by (apply (bool_decide_unpack _); vm_compute; exact I).
  pose proof (current_borrowed_counts_open_loans db_fresh Hfresh) as (Hissue & _).
  destruct (Hissue today0 "l1" "lib1" (borrow_data 14) test_book test_member)
    as (loan & db' & Hrun & _ & Hst & _ & Hcb & _ & Hinv');
    [vm_compute; reflexivity|vm_compute; reflexivity|vm_compute; reflexivity
    |vm_compute; reflexivity|reflexivity|vm_compute; discriminate
    |vm_compute; discriminate|vm_compute; split; discriminate|].
  assert (Hdb : db' = db_loaned) by (unfold db_loaned; by rewrite Hrun).
  split; [exact Hfresh|]. split; [by exists loan, db'|].
  assert (Hloaned : member_invariant db_loaned) by (by rewrite <-Hdb).
  split; [exact Hloaned|].
  pose proof (current_borrowed_counts_open_loans db_loaned Hloaned) as (_ & Hreturn & _).
  destruct (Hreturn (today0 + 14) "p1" "l1" (BorrowingReturn.mk None) open_loan_row
              (Book.mk 5 4 true) (Member.mk true 1 1))
    as (loan2 & db2 & Hrun2 & _ & Hst2 & _ & Hcb2 & _ & Hinv2);
    [vm_compute; reflexivity|discriminate|vm_compute; reflexivity|vm_compute; reflexivity|].
  exists loan2, db2. split; [done|].
  split; [unfold db_returned; by rewrite Hrun2|]. done.
Defined.

Lemma issue_book_invariant today new_id librarian_id borrowing db loan db' :
  book_invariant db →
  request (create_borrowing today new_id librarian_id borrowing) db = (inr loan, db') →
  book_invariant db'.
Proof.
  intros Hinv Hrun.
  apply create_borrowing_ok in Hrun
    as (book & member & Hbook & Hav & _ & _ & _ & Hbooks & _).
  unfold book_invariant in *. rewrite Hbooks.
  apply map_Forall_insert_2; [|done].
  specialize (Hinv _ _ Hbook). cbn in *. lia.
Qed.

Lemma return_copies_nonneg today new_id borrow_id return_data db loan db' :
  copies_nonneg db →
  request (return_book today new_id borrow_id return_data) db = (inr loan, db') →
  copies_nonneg db'.
Proof.
  intros Hinv Hrun.
  apply return_book_ok in Hrun
    as (b & bk & m & Hb & Hst & Hbk & Hm & _ & Hbooks & _).
  unfold copies_nonneg in *. rewrite Hbooks.
  apply map_Forall_insert_2; [|done].
  specialize (Hinv _ _ Hbk). cbn in *. lia.
Qed.

Lemma return_book_invariant today new_id borrow_id return_data db loan db' :
  book_invariant db →
  (∀ b bk, borrowings db !! borrow_id = Some b →
           books db !! Borrowing.book_id b = Some bk →
           Book.available_copies bk < Book.total_copies bk) →
  request (return_book today new_id borrow_id return_data) db = (inr loan, db') →
  book_invariant db'.
Proof.
  intros Hinv Hroom Hrun.
  apply return_book_ok in Hrun
    as (b & bk & m & Hb & Hst & Hbk & Hm & _ & Hbooks & _).
  unfold book_invariant in *. rewrite Hbooks.
  apply map_Forall_insert_2; [|done].
  specialize (Hinv _ _ Hbk). specialize (Hroom _ _ Hb Hbk). cbn in *. lia.
Qed.

Lemma ledger_book_invariant db : ledger_invariant db → book_invariant db.
Proof.
  unfold ledger_invariant, book_invariant. intros Hinv k b Hk.
  specialize (Hinv _ _ Hk). cbn in *. lia.
Qed.

Lemma issue_ledger_invariant today new_id librarian_id borrowing db loan db' :
  ledger_invariant db →
  borrowings db !! new_id = None →
  request (create_borrowing today new_id librarian_id borrowing) db = (inr loan, db') →
  ledger_invariant db'.
Proof.
  intros Hinv Hfresh Hrun.
  apply create_borrowing_ok in Hrun
    as (book & member & Hbook & Hav & _ & _ & Hloan & Hbooks & _ & Hloans & _).
  unfold ledger_invariant, open_loans_of_book in *.
  rewrite Hbooks, Hloans. intros k x Hk.
  rewrite size_filter_insert, (delete_id _ _ Hfresh).
  destruct (decide (BorrowingCreate.book_id borrowing = k)) as [<-|Hne].
  - rewrite lookup_insert_eq in Hk. injection Hk as <-. cbn.
    specialize (Hinv _ _ Hbook). cbn in Hinv.
    rewrite decide_True; [lia|]. subst loan. split; [done|by left].
  - rewrite lookup_insert_ne in Hk by done.
    specialize (Hinv _ _ Hk). cbn in Hinv.
    rewrite decide_False; [done|]. subst loan. intros [? _]. done.
Qed.

Lemma return_ledger_invariant today new_id borrow_id return_data db loan db' :
  ledger_invariant db →
  request (return_book today new_id borrow_id return_data) db = (inr loan, db') →
  ledger_invariant db'.
Proof.
  intros Hinv Hrun.
  apply return_book_ok in Hrun
    as (b & bk & m & Hb & Hst & Hbk & Hm & -> & Hbooks & _ & Hloans & _).
  unfold ledger_invariant, open_loans_of_book in *.
  rewrite Hbooks, Hloans. intros k x Hk.
  rewrite size_filter_insert.
  rewrite decide_False
    by (intros [_ Ho]; revert Ho; apply returned_not_open, returned_loan_status).
  destruct (decide (Borrowing.book_id b = k)) as [<-|Hne].
  - rewrite lookup_insert_eq in Hk. injection Hk as <-. cbn.
    specialize (Hinv _ _ Hbk). cbn in Hinv.
    rewrite (size_filter_lookup _ _ _ _ Hb) in Hinv.
    rewrite decide_True in Hinv by (split; [done|by apply not_returned_open]).
    lia.
  - rewrite lookup_insert_ne in Hk by done.
    specialize (Hinv _ _ Hk). cbn in Hinv.
    rewrite (size_filter_lookup _ _ _ _ Hb) in Hinv.
    rewrite decide_False in Hinv by (intros [? _]; done).
    done.
Qed.

(** The store [db_stock_cut] is what the handlers themselves produce: the
    single copy is issued, then [update_book] sets the stock to zero. *)
Lemma stock_cut_reachable :
  ∃ loan book,
    request (create_borrowing today0 "l1" "lib1" (borrow_data 14)) db_single_copy
    = (inr loan, (request (create_borrowing today0 "l1" "lib1" (borrow_data 14))
                          db_single_copy).2)
    ∧ request (update_book "b1" (BookUpdate.mk (Some 0)))
              (request (create_borrowing today0 "l1" "lib1" (borrow_data 14))
                       db_single_copy).2
      = (inr book, db_stock_cut).
Proof. eexists _, _. split; vm_compute; reflexivity. Qed.

(** Every book of [db_stock_cut] has 0 ≤ available ≤ total; the Return of
    its one loan goes through and leaves book b1 with one available copy
    out of a stock of zero. *)
Lemma return_breaks_book_invariant :
  book_invariant db_stock_cut
  ∧ ∃ loan db',
      request (return_book today0 "p1" "l1" (BorrowingReturn.mk None)) db_stock_cut
      = (inr loan, db')
      ∧ books db' !! "b1" = Some (Book.mk 0 1 true)
      ∧ ¬ book_invariant db'.
Proof.
  split; [apply (bool_decide_unpack _); vm_compute; exact I|].
  eexists _, _. split; [vm_compute; reflexivity|].
  split; [vm_compute; reflexivity|].
  intros Hinv. specialize (Hinv "b1" (Book.mk 0 1 true)). cbn in Hinv.
  assert (0 <= 1 <= 0) by (apply Hinv; vm_compute; reflexivity). lia.
Qed.

(** C5, amended.  From a store where every book has
    0 ≤ available_copies ≤ total_copies: every Issue, accepted or not,
    leaves such a store (it asks for an available copy and takes one);
    every Return leaves 0 ≤ available_copies for every book, and leaves
    available_copies ≤ total_copies as well when the returned loan's book
    had a copy missing from the shelf (available_copies < total_copies)
    before the call.  That is the case whenever, for every book,
    available_copies plus the number of its open loans is at most
    total_copies, a relation that Issue and Return both maintain. *)
Theorem book_invariant_issue_return db (Hinv : book_invariant db) :
  (∀ today new_id librarian_id borrowing outcome db',
     request (create_borrowing today new_id librarian_id borrowing) db = (outcome, db') →
     book_invariant db')
  ∧ (∀ today new_id librarian_id borrowing loan db',
       request (create_borrowing today new_id librarian_id borrowing) db = (inr loan, db') →
       ∃ bk, books db !! Borrowing.book_id loan = Some bk
             ∧ 0 < Book.available_copies bk
             ∧ Book.available_copies <$> books db' !! Borrowing.book_id loan
               = Some (Book.available_copies bk - 1))
  ∧ (∀ today new_id borrow_id return_data loan db',
       request (return_book today new_id borrow_id return_data) db = (inr loan, db') →
       ∃ bk, books db !! Borrowing.book_id loan = Some bk
             ∧ Book.available_copies <$> books db' !! Borrowing.book_id loan
               = Some (Book.available_copies bk + 1))
  ∧ (∀ today new_id borrow_id return_data outcome db',
       request (return_book today new_id borrow_id return_data) db = (outcome, db') →
       copies_nonneg db'
       ∧ ((∀ b bk, borrowings db !! borrow_id = Some b →
                   books db !! Borrowing.book_id b = Some bk →
                   Book.available_copies bk < Book.total_copies bk) →
          book_invariant db')
       ∧ (ledger_invariant db → ledger_invariant db' ∧ book_invariant db'))
  ∧ (∀ today new_id librarian_id borrowing outcome db',
       ledger_invariant db →
       borrowings db !! new_id = None →
       request (create_borrowing today new_id librarian_id borrowing) db = (outcome, db') →
       ledger_invariant db').
Proof.
  assert (Hnonneg : copies_nonneg db).
  { intros k b Hk. specialize (Hinv _ _ Hk). cbn in *. lia. }
  split; [|split; [|split; [|split]]].
  - intros today new_id librarian_id borrowing [e|loan] db' Hrun.
    + by rewrite (request_failure _ _ _ _ Hrun).
    + by eapply issue_book_invariant.
  - intros today new_id librarian_id borrowing loan db' Hrun.
    apply create_borrowing_ok in Hrun
      as (book & member & Hbook & Hav & _ & _ & -> & -> & _). cbn.
    exists book. split; [done|]. split; [done|]. by rewrite lookup_insert_eq.
  - intros today new_id borrow_id return_data loan db' Hrun.
    apply return_book_ok in Hrun
      as (b & bk & m & _ & _ & Hbk & _ & -> & -> & _).
    rewrite returned_loan_book. exists bk. split; [done|]. by rewrite lookup_insert_eq.
  - intros today new_id borrow_id return_data [e|loan] db' Hrun.
    + rewrite (request_failure _ _ _ _ Hrun).
      split; [done|]. split; [done|]. by intros Hledger.
    + split; [by eapply return_copies_nonneg|].
      split; [intros Hroom; by eapply return_book_invariant|].
      intros Hledger.
      assert (ledger_invariant db') by (by eapply return_ledger_invariant).
      split; [done|by apply ledger_book_invariant].
  - intros today new_id librarian_id borrowing [e|loan] db' Hledger Hfresh Hrun.
    + by rewrite (request_failure _ _ _ _ Hrun).
    + by eapply issue_ledger_invariant.
Qed.

Lemma book_invariant_issue_return_witness :
  book_invariant db_fresh ∧ book_invariant db_loaned ∧ book_invariant db_returned.
Proof.
  assert (Hfresh : book_invariant db_fresh)
    by (apply (bool_decide_unpack _); vm_compute; exact I).
  pose proof (book_invariant_issue_return db_fresh Hfresh) as (Hissue & _).
  assert (Hloaned : book_invariant db_loaned).
  { apply (Hissue today0 "l1" "lib1" (borrow_data 14)
             (request (create_borrowing today0 "l1" "lib1" (borrow_data 14)) db_fresh).1).
    vm_compute; reflexivity. }
  pose proof (book_invariant_issue_return db_loaned Hloaned) as (_ & _ & _ & Hret & _).
  split; [exact Hfresh|]. split; [exact Hloaned|].
  destruct (Hret (today0 + 14) "p1" "l1" (BorrowingReturn.mk None)
              (request (return_book (today0 + 14) "p1" "l1" (BorrowingReturn.mk None))
                       db_loaned).1 db_returned) as (_ & Hroom & _);
    [vm_compute; reflexivity|].
  apply Hroom. intros b bk Hb Hbk.
  vm_compute in Hb. injection Hb as <-. vm_compute in Hbk. injection Hbk as <-.
  vm_compute. reflexivity.
Defined.

End StoreInvariants.

(** ** Paying a penalty *)

Section PayPenalty.
Import Routes Fixtures.

(** An override of zero is not taken: the penalty of 10000 is recorded as
    paid with 10000. *)
Lemma zero_override_ignored :
  PenaltyUpdate.paid_amount (PenaltyUpdate.mk (Some 0) None) = Some 0
  ∧ ∃ p db',
      request (pay_penalty today0 "p1" (PenaltyUpdate.mk (Some 0) None)) db_penalty
      = (inr p, db')
      ∧ penalties db' !! "p1" = Some p
      ∧ Penalty.amount p = 10000
      ∧ Penalty.paid_amount p = Some 10000
      ∧ Penalty.paid_amount p ≠ Some 0.
Proof.
  split; [reflexivity|]. eexists _, _.
  split; [vm_compute; reflexivity|]. split; [vm_compute; reflexivity|].
  split; [reflexivity|]. split; [reflexivity|discriminate].
Qed.

(** C10, amended.  Paying an existing penalty that is not yet [paid] goes
    through and touches that one row only: member, borrowing, amount and
    reason stay as they were; [status] becomes [paid], [paid_date] today,
    [notes] the supplied notes when they are not empty; [paid_amount] is
    the supplied value when there is one and it is not zero, and the
    penalty's [amount] when none is supplied or zero is. *)
Theorem pay_penalty_frame today penalty_id payment db p
    (Hrow : penalties db !! penalty_id = Some p)
    (Hunpaid : Penalty.status p ≠ paid) :
  ∃ p',
    request (pay_penalty today penalty_id payment) db
    = (inr p', mkDB (books db) (members db) (borrowings db)
                    (<[penalty_id := p']> (penalties db)))
    ∧ Penalty.member_id p' = Penalty.member_id p
    ∧ Penalty.borrow_id p' = Penalty.borrow_id p
    ∧ Penalty.amount p' = Penalty.amount p
    ∧ Penalty.reason p' = Penalty.reason p
    ∧ Penalty.status p' = paid
    ∧ Penalty.paid_date p' = Some today
    ∧ Penalty.notes p' = (if truthy_str (PenaltyUpdate.notes payment)
                          then PenaltyUpdate.notes payment else Penalty.notes p)
    ∧ (PenaltyUpdate.paid_amount payment = None →
       Penalty.paid_amount p' = Some (Penalty.amount p))
    ∧ (∀ v, PenaltyUpdate.paid_amount payment = Some v → v ≠ 0 →
            Penalty.paid_amount p' = Some v)
    ∧ (PenaltyUpdate.paid_amount payment = Some 0 →
       Penalty.paid_amount p' = Some (Penalty.amount p)).
Proof.
  exists (paid_penalty today payment p). split.
  - unfold request. rewrite pay_penalty_run, Hrow.
    rewrite bool_decide_eq_false_2 by done. unfold with_penalties.
    by erewrite alter_as_insert.
  - unfold paid_penalty, or_Z.
    destruct (truthy_str (PenaltyUpdate.notes payment)); cbn;
      repeat split; try done.
    all: try (intros ->; done).
    all: intros v -> Hv; by destruct (Z.eqb_spec v 0).
Qed.

Lemma pay_penalty_frame_witness :
  ∃ p' db',
    request (pay_penalty today0 "p1" (PenaltyUpdate.mk (Some 10000) None)) db_penalty
    = (inr p', db')
    ∧ Penalty.amount p' = 10000 ∧ Penalty.status p' = paid
    ∧ Penalty.paid_amount p' = Some 10000.
Proof.
  destruct (pay_penalty_frame today0 "p1" (PenaltyUpdate.mk (Some 10000) None) db_penalty
              (Penalty.mk "m1" None 10000 "Test penalty" unpaid None None None))
    as (p' & Hrun & _ & _ & Hamount & _ & Hst & _ & _ & _ & Hover & _).
  - vm_compute; reflexivity.
  - discriminate.
  - eexists p', _. split; [exact Hrun|]. split; [exact Hamount|].
    split; [exact Hst|]. apply Hover; [reflexivity|discriminate].
Defined.

End PayPenalty.

(* ===================================================================== *)
(** * Further properties of the handlers and the helpers                 *)
(* ===================================================================== *)

Section BookHandlers.
Import Routes Invariants BookRoutes Integrity Fixtures.

Lemma delete_book_run book_id db :
  delete_book book_id db =
  match books db !! book_id with
  | None => (inl (HTTPException 404 "Kitob topilmadi"), db)
  | Some _ =>
    if 0 <? Z.of_nat (open_loans_of_book book_id db)
    then (inl (HTTPException 400
                 ("Bu kitobning " +:+ pretty (Z.of_nat (open_loans_of_book book_id db))
                  +:+ " ta aktiv ijarasi bor. Avval ularni qaytaring.")), db)
    else (inr "Kitob muvaffaqiyatli o'chirildi", with_books (delete book_id) db)
  end.
Proof.
  unfold delete_book. session_unfold.
  destruct (books db !! book_id); [|reflexivity].
  by destruct (0 <? _).
Qed.

Lemma update_book_run book_id book db :
  update_book book_id book db =
  match books db !! book_id with
  | None => (inl (HTTPException 404 "Kitob topilmadi"), db)
  | Some bk => (inr (updated_book book bk),
                with_books (alter (updated_book book) book_id) db)
  end.
Proof.
  unfold update_book. session_unfold. by destruct (books db !! book_id).
Qed.

(** X1. [delete_book] answers 404 for a book that is not in the store and
    400, with the number of open loans in the message, for a book that
    has loans in status borrowed or late; both leave the store as it was.
    When it accepts, the book had no open loan and only its row is taken
    out; a book that no loan row names is always accepted. *)
Theorem delete_book_guard book_id db :
  (books db !! book_id = None →
   request (delete_book book_id) db = (inl (HTTPException 404 "Kitob topilmadi"), db))
  ∧ (is_Some (books db !! book_id) → (0 < open_loans_of_book book_id db)%nat →
     request (delete_book book_id) db
     = (inl (HTTPException 400
               ("Bu kitobning " +:+ pretty (Z.of_nat (open_loans_of_book book_id db))
                +:+ " ta aktiv ijarasi bor. Avval ularni qaytaring.")), db))
  ∧ (∀ msg db', request (delete_book book_id) db = (inr msg, db') →
       is_Some (books db !! book_id)
       ∧ open_loans_of_book book_id db = 0%nat
       ∧ db' = mkDB (delete book_id (books db)) (members db) (borrowings db) (penalties db))
  ∧ (is_Some (books db !! book_id) →
     (∀ k b, borrowings db !! k = Some b → Borrowing.book_id b ≠ book_id) →
     ∃ db', request (delete_book book_id) db = (inr "Kitob muvaffaqiyatli o'chirildi", db')
            ∧ books db' !! book_id = None).
Proof.
  unfold request. rewrite delete_book_run.
  split; [|split; [|split]].
  - by intros ->.
  - intros [bk ->] Hopen. by destruct (Z.ltb_spec 0 (Z.of_nat (open_loans_of_book book_id db))); [|lia].
  - intros msg db'. destruct (books db !! book_id) as [bk|]; [|discriminate].
    destruct (Z.ltb_spec 0 (Z.of_nat (open_loans_of_book book_id db))); [discriminate|].
    intros [= <- <-]. split; [eauto|]. split; [lia|done].
  - intros [bk ->] Hnone.
    assert (Hzero : open_loans_of_book book_id db = 0%nat).
    { unfold open_loans_of_book. rewrite map_empty_filter_2; [done|].
      intros k b Hk [Hb _]. by eapply Hnone. }
    rewrite Hzero. cbn. eexists. split; [reflexivity|]. cbn. apply lookup_delete_eq.
Qed.

Lemma issue_opens_loan_of_book today new_id librarian_id borrowing db loan db' :
  borrowings db !! new_id = None →
  request (create_borrowing today new_id librarian_id borrowing) db = (inr loan, db') →
  open_loans_of_book (BorrowingCreate.book_id borrowing) db'
  = S (open_loans_of_book (BorrowingCreate.book_id borrowing) db).
Proof.
  intros Hfresh Hrun.
  apply create_borrowing_ok in Hrun
    as (book & member & _ & _ & _ & _ & -> & _ & _ & Hloans & _).
  unfold open_loans_of_book. rewrite Hloans.
  rewrite size_filter_insert, (delete_id _ _ Hfresh).
  rewrite decide_True; [done|]. split; [done|by left].
Qed.

(** X2. After an accepted Issue the book of the new loan cannot be
    deleted: [delete_book] answers 400 with the number of its open loans,
    which is at least one, and the book is still in the store. *)
Theorem issued_book_cannot_be_deleted today new_id librarian_id borrowing db loan db'
    (Hfresh : borrowings db !! new_id = None)
    (Hissue : request (create_borrowing today new_id librarian_id borrowing) db
              = (inr loan, db')) :
  ∃ n, (0 < n)%nat
       ∧ open_loans_of_book (BorrowingCreate.book_id borrowing) db' = n
       ∧ request (delete_book (BorrowingCreate.book_id borrowing)) db'
         = (inl (HTTPException 400
                   ("Bu kitobning " +:+ pretty (Z.of_nat n)
                    +:+ " ta aktiv ijarasi bor. Avval ularni qaytaring.")), db')
       ∧ is_Some (books db' !! BorrowingCreate.book_id borrowing).
Proof.
  pose proof (issue_opens_loan_of_book _ _ _ _ _ _ _ Hfresh Hissue) as Hcount.
  apply create_borrowing_ok in Hissue
    as (book & member & Hbook & _ & _ & _ & _ & Hbooks & _).
  assert (Hstill : is_Some (books db' !! BorrowingCreate.book_id borrowing))
    by (rewrite Hbooks, lookup_insert_eq; eauto).
  eexists. split; [|split; [reflexivity|split; [|done]]]; [lia|].
  unfold request. rewrite delete_book_run.
  destruct Hstill as [bk ->]. rewrite Hcount.
  by destruct (Z.ltb_spec 0 (Z.of_nat (S (open_loans_of_book
            (BorrowingCreate.book_id borrowing) db)))); [|lia].
Qed.

Lemma issued_book_cannot_be_deleted_witness :
  request (delete_book "b1") db_loaned
  = (inl (HTTPException 400 "Bu kitobning 1 ta aktiv ijarasi bor. Avval ularni qaytaring."),
     db_loaned).
Proof.
  destruct (issued_book_cannot_be_deleted today0 "l1" "lib1" (borrow_data 14) db_fresh
              (Borrowing.mk "m1" "b1" (Some "lib1") (today0 + 14) None borrowed None)
              db_loaned)
    as (n & _ & Hn & Hdel & _).
  - vm_compute; reflexivity.
  - vm_compute; reflexivity.
  - vm_compute in Hn. subst n. exact Hdel.
Defined.

(** X3. If every open loan names a book of the store, it still does after
    any Issue, Return, [delete_book], [update_book] or [pay_penalty],
    whatever their outcome: no handler takes away the book of a loan that
    is still out. *)
Theorem open_loans_keep_their_books db (Hinv : open_loans_have_books db) :
  (∀ today new_id librarian_id borrowing outcome db',
     borrowings db !! new_id = None →
     request (create_borrowing today new_id librarian_id borrowing) db = (outcome, db') →
     open_loans_have_books db')
  ∧ (∀ today new_id borrow_id return_data outcome db',
       request (return_book today new_id borrow_id return_data) db = (outcome, db') →
       open_loans_have_books db')
  ∧ (∀ book_id outcome db',
       request (delete_book book_id) db = (outcome, db') → open_loans_have_books db')
  ∧ (∀ book_id book outcome db',
       request (update_book book_id book) db = (outcome, db') → open_loans_have_books db')
  ∧ (∀ today penalty_id payment outcome db',
       request (pay_penalty today penalty_id payment) db = (outcome, db') →
       open_loans_have_books db').
Proof.
  split; [|split; [|split; [|split]]].
  - intros today new_id librarian_id borrowing [e|loan] db' Hfresh Hrun.
    { by rewrite (request_failure _ _ _ _ Hrun). }
    apply create_borrowing_ok in Hrun
      as (book & member & Hbook & _ & _ & _ & Hloan & Hbooks & _ & Hloans & _).
    unfold open_loans_have_books in *. rewrite Hbooks, Hloans.
    apply map_Forall_insert_2.
    + intros _. subst loan. cbn. rewrite lookup_insert_eq. eauto.
    + intros k b Hk Ho. specialize (Hinv _ _ Hk Ho). cbn in Hinv.
      rewrite lookup_insert_is_Some. destruct (decide
        (BorrowingCreate.book_id borrowing = Borrowing.book_id b)); auto.
  - intros today new_id borrow_id return_data [e|loan] db' Hrun.
    { by rewrite (request_failure _ _ _ _ Hrun). }
    apply return_book_ok in Hrun
      as (b & bk & m & Hb & Hst & Hbk & Hm & -> & Hbooks & _ & Hloans & _).
    unfold open_loans_have_books in *. rewrite Hbooks, Hloans.
    apply map_Forall_insert_2.
    + intros Ho. exfalso. revert Ho. apply returned_not_open, returned_loan_status.
    + intros k b' Hk Ho. specialize (Hinv _ _ Hk Ho). cbn in Hinv.
      rewrite lookup_insert_is_Some. destruct (decide
        (Borrowing.book_id b = Borrowing.book_id b')); auto.
  - intros book_id [e|msg] db' Hrun.
    { by rewrite (request_failure _ _ _ _ Hrun). }
    revert Hrun. unfold request. rewrite delete_book_run.
    destruct (books db !! book_id) as [bk|] eqn:Hbk; [|discriminate].
    destruct (Z.ltb_spec 0 (Z.of_nat (open_loans_of_book book_id db))) as [|Hzero];
      [discriminate|].
    intros [= _ <-]. unfold open_loans_have_books in *. cbn.
    intros k b Hk Ho. specialize (Hinv _ _ Hk Ho). cbn in Hinv.
    rewrite lookup_delete_ne; [done|]. intros Heq.
    assert (Hpos : (0 < open_loans_of_book book_id db)%nat); [|lia].
    unfold open_loans_of_book. rewrite (size_filter_lookup _ _ _ _ Hk).
    rewrite decide_True by done. lia.
  - intros book_id book [e|bk'] db' Hrun.
    { by rewrite (request_failure _ _ _ _ Hrun). }
    revert Hrun. unfold request. rewrite update_book_run.
    destruct (books db !! book_id) as [bk|] eqn:Hbk; [|discriminate].
    intros [= _ <-]. unfold open_loans_have_books in *. cbn.
    intros k b Hk Ho. specialize (Hinv _ _ Hk Ho). cbn in Hinv.
    by rewrite lookup_alter_is_Some.
  - intros today penalty_id payment [e|p'] db' Hrun.
    { by rewrite (request_failure _ _ _ _ Hrun). }
    revert Hrun. unfold request. rewrite pay_penalty_run.
    destruct (penalties db !! penalty_id) as [p|]; [|discriminate].
    case_bool_decide; [discriminate|]. by intros [= _ <-].
Qed.

Lemma open_loans_keep_their_books_witness :
  open_loans_have_books db_loaned
  ∧ open_loans_have_books (request (delete_book "b1") db_loaned).2.
Proof.
  assert (Hinv : open_loans_have_books db_loaned)
    by (apply (bool_decide_unpack _); vm_compute; exact I).
  split; [exact Hinv|].
  pose proof (open_loans_keep_their_books db_loaned Hinv) as (_ & _ & Hdel & _).
  apply (Hdel "b1" (request (delete_book "b1") db_loaned).1).
  by destruct (request (delete_book "b1") db_loaned).
Defined.
End BookHandlers.

Section StockAndRows.
Import Utils Routes Invariants BookRoutes Integrity DateUtils Fixtures.

(** X4. [update_book] with a new [total_copies] stores that total and
    moves [available_copies] by the same difference, stopping at 0: the
    available count is never negative; the number of copies out (total
    minus available) is kept when the new total covers it, and otherwise
    available becomes 0.  With a new total that is not negative, a store
    where every book has 0 ≤ available ≤ total stays one. *)
Theorem update_book_copy_counts book_id new_total db bk
    (Hrow : books db !! book_id = Some bk) :
  ∃ bk',
    request (update_book book_id (BookUpdate.mk (Some new_total))) db
    = (inr bk', mkDB (<[book_id := bk']> (books db)) (members db)
                     (borrowings db) (penalties db))
    ∧ Book.total_copies bk' = new_total
    ∧ Book.is_active bk' = Book.is_active bk
    ∧ 0 <= Book.available_copies bk'
    ∧ (Book.total_copies bk - Book.available_copies bk <= new_total →
       new_total - Book.available_copies bk'
       = Book.total_copies bk - Book.available_copies bk)
    ∧ (new_total < Book.total_copies bk - Book.available_copies bk →
       Book.available_copies bk' = 0)
    ∧ (0 <= new_total → Book.available_copies bk <= Book.total_copies bk →
       Book.available_copies bk' <= new_total)
    ∧ (book_invariant db → 0 <= new_total →
       book_invariant (mkDB (<[book_id := bk']> (books db)) (members db)
                            (borrowings db) (penalties db))).
Proof.
  exists (updated_book (BookUpdate.mk (Some new_total)) bk). split.
  - unfold request. rewrite update_book_run, Hrow. unfold with_books.
    by erewrite alter_as_insert.
  - unfold updated_book. cbn.
    split; [done|]. split; [done|]. split; [lia|]. split; [lia|].
    split; [lia|]. split; [lia|].
    intros Hinv Hnn. unfold book_invariant in *. cbn.
    apply map_Forall_insert_2; [|done].
    specialize (Hinv _ _ Hrow). cbn in *. lia.
Qed.

Lemma update_book_copy_counts_witness :
  ∃ bk', request (update_book "b1" (BookUpdate.mk (Some 10))) db_loaned
         = (inr bk', mkDB (<[ "b1" := bk' ]> (books db_loaned)) (members db_loaned)
                          (borrowings db_loaned) (penalties db_loaned))
         ∧ Book.total_copies bk' = 10 ∧ 10 - Book.available_copies bk' = 5 - 4.
Proof.
  destruct (update_book_copy_counts "b1" 10 db_loaned (Book.mk 5 4 true))
    as (bk' & Hrun & Htotal & _ & _ & Hout & _).
  - vm_compute; reflexivity.
  - exists bk'. split; [exact Hrun|]. split; [exact Htotal|].
    apply Hout. vm_compute; discriminate.
Defined.

(** X5. A Return of an open loan whose book row or member row is not in
    the store ends in [AttributeError]: nothing is committed, so the
    store is as before and the loan is still open, although the handler
    had already marked the loan returned in its session and added no
    penalty. *)
Theorem return_book_missing_row today new_id borrow_id return_data db b
    (Hloan : borrowings db !! borrow_id = Some b)
    (Hopen : Borrowing.status b ≠ returned)
    (Hgone : books db !! Borrowing.book_id b = None
             ∨ members db !! Borrowing.member_id b = None) :
  request (return_book today new_id borrow_id return_data) db = (inl AttributeError, db)
  ∧ ∃ session,
      return_book today new_id borrow_id return_data db = (inl AttributeError, session)
      ∧ Borrowing.status <$> borrowings session !! borrow_id = Some returned
      ∧ penalties session = penalties db
      ∧ members session = members db.
Proof.
  unfold request. rewrite return_book_run, Hloan.
  rewrite bool_decide_eq_false_2 by done. cbn zeta.
  destruct (books db !! Borrowing.book_id b) as [bk|] eqn:Hbk.
  - destruct Hgone as [|Hm]; [discriminate|]. rewrite Hm.
    split; [done|]. eexists. split; [reflexivity|]. cbn.
    rewrite lookup_alter_eq, Hloan. cbn. by rewrite returned_loan_status.
  - split; [done|]. eexists. split; [reflexivity|]. cbn.
    rewrite lookup_alter_eq, Hloan. cbn. by rewrite returned_loan_status.
Qed.

Lemma return_book_missing_row_witness :
  request (return_book today0 "p1" "l1" (BorrowingReturn.mk None))
          (with_members (delete "m1") db_loaned)
  = (inl AttributeError, with_members (delete "m1") db_loaned).
Proof.
  apply (return_book_missing_row today0 "p1" "l1" (BorrowingReturn.mk None)
           (with_members (delete "m1") db_loaned)
           (Borrowing.mk "m1" "b1" (Some "lib1") (today0 + 14) None borrowed None)).
  - vm_compute; reflexivity.
  - discriminate.
  - right. vm_compute; reflexivity.
Defined.

(** The store after an accepted Issue followed by the Return of that loan. *)
Lemma issue_then_return today new_id librarian_id borrowing db loan db1
    today2 penalty_id return_data :
  borrowings db !! new_id = None →
  request (create_borrowing today new_id librarian_id borrowing) db = (inr loan, db1) →
  ∃ member db2,
    members db !! BorrowingCreate.member_id borrowing = Some member
    ∧ request (return_book today2 penalty_id new_id return_data) db1
      = (inr (returned_loan today2 (BorrowingReturn.notes return_data) loan), db2)
    ∧ books db2 = books db
    ∧ members db2 = <[BorrowingCreate.member_id borrowing :=
                       Member.mk (Member.is_active member)
                                 (Member.current_borrowed member)
                                 (Member.total_borrowed member + 1)]> (members db)
    ∧ borrowings db2
      = <[new_id := returned_loan today2 (BorrowingReturn.notes return_data) loan]>
          (borrowings db)
    ∧ Borrowing.due_date loan = today + BorrowingCreate.days borrowing
    ∧ penalties db2 =
        if today + BorrowingCreate.days borrowing <? today2
        then <[penalty_id :=
                 Penalty.mk (BorrowingCreate.member_id borrowing) (Some new_id)
                   ((today2 - (today + BorrowingCreate.days borrowing)) * 5000)
                   (late_reason (today2 - (today + BorrowingCreate.days borrowing)))
                   unpaid None None None]> (penalties db)
        else penalties db.
Proof.
  intros Hfresh Hissue.
  apply create_borrowing_ok in Hissue
    as (book & member & Hbook & Hav & Hmember & Hact & Hloan & Hbooks & Hmem & Hloans & Hpen).
  assert (Hl1 : borrowings db1 !! new_id = Some loan)
    by (rewrite Hloans; apply lookup_insert_eq).
  assert (Hst : Borrowing.status loan ≠ returned) by (by subst loan).
  assert (Hb1 : books db1 !! Borrowing.book_id loan
                = Some (Book.set_available_copies (Book.available_copies book - 1) book))
    by (subst loan; cbn; rewrite Hbooks; apply lookup_insert_eq).
  assert (Hm1 : members db1 !! Borrowing.member_id loan
                = Some (Member.mk (Member.is_active member)
                                  (Member.current_borrowed member + 1)
                                  (Member.total_borrowed member + 1)))
    by (subst loan; cbn; rewrite Hmem; apply lookup_insert_eq).
  destruct (return_book_succeeds today2 penalty_id new_id return_data db1 loan _ _
              Hl1 Hst Hb1 Hm1) as [db2 Hret].
  exists member, db2. split; [done|]. split; [exact Hret|].
  apply return_book_ok in Hret
    as (b' & bk' & m' & Hb' & _ & Hbk' & Hm' & _ & Hbooks2 & Hmem2 & Hloans2 & Hpen2).
  assert (b' = loan) as -> by congruence.
  rewrite Hb1 in Hbk'. injection Hbk' as <-. rewrite Hm1 in Hm'. injection Hm' as <-.
  split; [|split; [|split; [|split]]].
  - rewrite Hbooks2, Hbooks. subst loan. cbn. rewrite insert_insert_eq.
    apply insert_id. rewrite Hbook. f_equal.
    destruct book as [t a i]. cbn. by replace (a - 1 + 1) with a by lia.
  - rewrite Hmem2, Hmem. subst loan. cbn. rewrite insert_insert_eq.
    unfold Member.set_current_borrowed. cbn.
    by replace (Member.current_borrowed member + 1 - 1)
      with (Member.current_borrowed member) by lia.
  - rewrite Hloans2, Hloans. by rewrite insert_insert_eq.
  - by subst loan.
  - rewrite Hpen2, Hpen. by subst loan.
Qed.
End StockAndRows.

Section LateReturns.
Import Utils Eligibility Routes Invariants Discount Fixtures.

Lemma sum_unpaid_first member_id pid p db :
  count_unpaid member_id db = 0 →
  penalties db !! pid = None →
  unpaid_of member_id (pid, p) →
  sum_amount (filter (unpaid_of member_id) (<[pid := p]> (penalties db)))
  = Some (Penalty.amount p)
  ∧ size (filter (unpaid_of member_id) (<[pid := p]> (penalties db))) = 1%nat.
Proof.
  intros Hzero Hfresh Hp.
  assert (Hempty : size (filter (unpaid_of member_id) (penalties db)) = 0%nat).
  { unfold count_unpaid in Hzero. lia. }
  apply map_size_empty_inv in Hempty.
  rewrite map_filter_insert_True by done. rewrite Hempty.
  change (<[pid := p]> (∅ : gmap string Penalty.t)) with ({[pid := p]} : gmap string Penalty.t).
  unfold sum_amount. rewrite map_size_singleton, map_fold_singleton.
  split; [|done]. rewrite bool_decide_eq_false_2 by done. done.
Qed.

Lemma issue_refused_over_unpaid today new_id librarian_id borrowing db total :
  sum_unpaid (BorrowingCreate.member_id borrowing) db = Some total →
  0 < total →
  (∃ e, request (create_borrowing today new_id librarian_id borrowing) db = (inl e, db))
  ∧ (∀ book member,
       books db !! BorrowingCreate.book_id borrowing = Some book →
       0 < Book.available_copies book →
       members db !! BorrowingCreate.member_id borrowing = Some member →
       Member.is_active member = true →
       request (create_borrowing today new_id librarian_id borrowing) db
       = (inl (HTTPException 400
                 ("A'zoning " +:+ pretty total +:+ " so'm to'lanmagan jarimasi bor")), db)).
Proof.
  intros Hsum Hpos. unfold request. rewrite create_borrowing_run. cbn zeta.
  rewrite Hsum. cbn [or_Z].
  destruct (Z.eqb_spec total 0); [lia|].
  destruct (Z.ltb_spec 0 total); [|lia].
  split.
  - destruct (books db !! _) as [book|]; [|eauto].
    destruct (_ <=? 0); [eauto|].
    destruct (members db !! _) as [member|]; [|eauto].
    destruct (negb _); eauto.
  - intros book member -> Hav -> ->. cbn.
    by destruct (Z.leb_spec (Book.available_copies book) 0); [lia|].
Qed.

(** X8. When a member without unpaid penalties returns a loan late, the
    Return goes through, the member then has one unpaid penalty whose
    amount is 5000 per late day, and from then on no Issue for that member
    is accepted; with a book that has a copy and the member active, the
    refusal is the 400 error that quotes that amount. *)
Theorem late_return_blocks_issue today new_id borrow_id return_data db b bk m
    (Hloan : borrowings db !! borrow_id = Some b)
    (Hopen : Borrowing.status b ≠ returned)
    (Hbook : books db !! Borrowing.book_id b = Some bk)
    (Hmember : members db !! Borrowing.member_id b = Some m)
    (Hfresh : penalties db !! new_id = None)
    (Hlate : Borrowing.due_date b < today)
    (Hclean : count_unpaid (Borrowing.member_id b) db = 0) :
  ∃ loan db',
    request (return_book today new_id borrow_id return_data) db = (inr loan, db')
    ∧ count_unpaid (Borrowing.member_id b) db' = 1
    ∧ sum_unpaid (Borrowing.member_id b) db' = Some ((today - Borrowing.due_date b) * 5000)
    ∧ ∀ today2 new_id2 librarian_id borrowing,
        BorrowingCreate.member_id borrowing = Borrowing.member_id b →
        (∃ e, request (create_borrowing today2 new_id2 librarian_id borrowing) db'
              = (inl e, db'))
        ∧ (∀ book, books db' !! BorrowingCreate.book_id borrowing = Some book →
             0 < Book.available_copies book → Member.is_active m = true →
             request (create_borrowing today2 new_id2 librarian_id borrowing) db'
             = (inl (HTTPException 400
                       ("A'zoning " +:+ pretty ((today - Borrowing.due_date b) * 5000)
                        +:+ " so'm to'lanmagan jarimasi bor")), db')).
Proof.
  destruct (return_book_succeeds today new_id borrow_id return_data db b bk m)
    as [db' Hrun]; [done..|].
  eexists _, db'. split; [exact Hrun|].
  apply return_book_ok in Hrun
    as (b' & bk' & m' & Hb' & _ & _ & Hm' & _ & _ & Hmem & _ & Hpen).
  assert (b' = b) as -> by congruence. assert (m' = m) as -> by congruence.
  destruct (Z.ltb_spec (Borrowing.due_date b) today); [|lia].
  destruct (sum_unpaid_first (Borrowing.member_id b) new_id
              (Penalty.mk (Borrowing.member_id b) (Some borrow_id)
                 ((today - Borrowing.due_date b) * 5000)
                 (late_reason (today - Borrowing.due_date b)) unpaid None None None) db)
    as [Hsum Hsize]; [done..|].
  assert (Hsum' : sum_unpaid (Borrowing.member_id b) db'
                  = Some ((today - Borrowing.due_date b) * 5000))
    by (unfold sum_unpaid; rewrite Hpen; exact Hsum).
  split; [unfold count_unpaid; rewrite Hpen, Hsize; done|]. split; [done|].
  intros today2 new_id2 librarian_id borrowing Hmid.
  destruct (issue_refused_over_unpaid today2 new_id2 librarian_id borrowing db'
              ((today - Borrowing.due_date b) * 5000)) as [Hnever Hmsg];
    [by rewrite Hmid | lia |].
  split; [done|]. intros book Hbk Hav Hact.
  eapply Hmsg; [done..| |].
  - rewrite Hmid, Hmem. apply lookup_insert_eq.
  - done.
Qed.

Lemma late_return_blocks_issue_witness :
  ∃ loan db',
    request (return_book (today0 + 19) "p1" "l1" (BorrowingReturn.mk None)) db_loaned
    = (inr loan, db')
    ∧ request (create_borrowing (today0 + 19) "l2" "lib1" (borrow_data 14)) db'
      = (inl (HTTPException 400 "A'zoning 25000 so'm to'lanmagan jarimasi bor"), db').
Proof.
  destruct (late_return_blocks_issue (today0 + 19) "p1" "l1" (BorrowingReturn.mk None)
              db_loaned
              (Borrowing.mk "m1" "b1" (Some "lib1") (today0 + 14) None borrowed None)
              (Book.mk 5 4 true) (Member.mk true 1 1))
    as (loan & db' & Hrun & _ & _ & Hblock).
  - vm_compute; reflexivity.
  - discriminate.
  - vm_compute; reflexivity.
  - vm_compute; reflexivity.
  - vm_compute; reflexivity.
  - vm_compute; reflexivity.
  - vm_compute; reflexivity.
  - exists loan, db'. split; [exact Hrun|].
    destruct (Hblock (today0 + 19) "l2" "lib1" (borrow_data 14)) as [_ Hmsg];
      [reflexivity|].
    apply (Hmsg (Book.mk 5 5 true)); [|vm_compute; reflexivity|reflexivity].
    assert (Hdb : db' = (request (return_book (today0 + 19) "p1" "l1"
                                   (BorrowingReturn.mk None)) db_loaned).2)
      by (by rewrite Hrun).
    rewrite Hdb. vm_compute; reflexivity.
Defined.
End LateReturns.

Section Payments.
Import Utils Eligibility Routes Invariants Discount Fixtures.

Lemma paid_penalty_status today payment p :
  Penalty.status (paid_penalty today payment p) = paid.
Proof. unfold paid_penalty. by destruct (truthy_str _). Qed.


(** What an accepted payment leaves in the store. *)
Lemma pay_penalty_ok today penalty_id payment db p' db' :
  request (pay_penalty today penalty_id payment) db = (inr p', db') →
  ∃ p, penalties db !! penalty_id = Some p
       ∧ Penalty.status p ≠ paid
       ∧ p' = paid_penalty today payment p
       ∧ db' = mkDB (books db) (members db) (borrowings db)
                    (<[penalty_id := p']> (penalties db)).
Proof.
  unfold request. rewrite pay_penalty_run.
  destruct (penalties db !! penalty_id) as [p|] eqn:Hp; [|discriminate].
  case_bool_decide as Hst; [discriminate|].
  intros [= <- <-]. exists p. repeat (split; [done|]).
  unfold with_penalties. by erewrite alter_as_insert.
Qed.

(** X9. Paying an unpaid penalty goes through and lowers the number of
    unpaid penalties of its member by one, leaving every other member's
    number as it was; when it was the member's only unpaid penalty, an
    Issue for that member on a book with a copy is accepted again. *)
Theorem paying_unblocks_issue today penalty_id payment db p
    (Hrow : penalties db !! penalty_id = Some p)
    (Hunpaid : Penalty.status p = unpaid) :
  ∃ p' db',
    request (pay_penalty today penalty_id payment) db = (inr p', db')
    ∧ count_unpaid (Penalty.member_id p) db' = count_unpaid (Penalty.member_id p) db - 1
    ∧ (∀ member_id, member_id ≠ Penalty.member_id p →
         count_unpaid member_id db' = count_unpaid member_id db)
    ∧ (count_unpaid (Penalty.member_id p) db = 1 →
       ∀ today2 new_id librarian_id borrowing book member,
         BorrowingCreate.member_id borrowing = Penalty.member_id p →
         books db !! BorrowingCreate.book_id borrowing = Some book →
         0 < Book.available_copies book →
         members db !! BorrowingCreate.member_id borrowing = Some member →
         Member.is_active member = true →
         Z.abs (BorrowingCreate.days borrowing) <= 999999999 →
         1 <= today2 + BorrowingCreate.days borrowing <= 3652059 →
         ∃ loan db'',
           request (create_borrowing today2 new_id librarian_id borrowing) db'
           = (inr loan, db'')).
Proof.
  eexists (paid_penalty today payment p), _. split.
  { unfold request. rewrite pay_penalty_run, Hrow.
    rewrite bool_decide_eq_false_2 by (rewrite Hunpaid; done). reflexivity. }
  assert (Hcount : ∀ member_id,
    count_unpaid member_id
      (with_penalties (alter (paid_penalty today payment) penalty_id) db)
    = count_unpaid member_id db
      - (if decide (member_id = Penalty.member_id p) then 1 else 0)).
  { intros member_id. unfold count_unpaid, with_penalties. cbn.
    erewrite alter_as_insert by done.
    rewrite size_filter_insert, (size_filter_lookup _ _ _ _ Hrow).
    rewrite (decide_False (P := unpaid_of member_id (penalty_id, paid_penalty _ _ _)))
      by (intros [_ Hst]; cbn in Hst; by rewrite paid_penalty_status in Hst).
    destruct (decide (member_id = Penalty.member_id p)) as [->|Hne].
    - rewrite decide_True by done. lia.
    - rewrite decide_False by (intros [? _]; done). lia. }
  split; [rewrite Hcount; by rewrite decide_True|].
  split; [intros member_id Hne; rewrite Hcount; rewrite decide_False by done; lia|].
  intros Hone today2 new_id librarian_id borrowing book member Hmid Hbook Hav Hmem Hact
         Hdelta Hdate.
  unfold request. rewrite create_borrowing_run. cbn zeta.
  change (books (with_penalties _ db)) with (books db).
  change (members (with_penalties _ db)) with (members db).
  rewrite Hbook, Hmem, Hact. cbn [negb].
  destruct (Z.leb_spec (Book.available_copies book) 0); [lia|].
  rewrite no_unpaid_no_sum
    by (rewrite Hmid, Hcount, decide_True by done; lia).
  cbn. unfold timedelta, date_add.
  destruct (Z.leb_spec (Z.abs (BorrowingCreate.days borrowing)) 999999999); [|lia].
  destruct (Z.leb_spec 1 (today2 + BorrowingCreate.days borrowing)); [|lia].
  destruct (Z.leb_spec (today2 + BorrowingCreate.days borrowing) 3652059); [|lia].
  cbn. eauto.
Qed.

Lemma paying_unblocks_issue_witness :
  ∃ p' db' loan db'',
    request (pay_penalty today0 "p1" (PenaltyUpdate.mk None None)) db_unpaid = (inr p', db')
    ∧ request (create_borrowing today0 "l1" "lib1" (borrow_data 14)) db' = (inr loan, db'').
Proof.
  destruct (paying_unblocks_issue today0 "p1" (PenaltyUpdate.mk None None) db_unpaid
              (Penalty.mk "m1" None 5000 "Test" unpaid None None None))
    as (p' & db' & Hpay & _ & _ & Hissue).
  - vm_compute; reflexivity.
  - reflexivity.
  - destruct (Hissue ltac:(vm_compute; reflexivity) today0 "l1" "lib1" (borrow_data 14)
                test_book test_member) as (loan & db'' & Hrun).
    + reflexivity.
    + vm_compute; reflexivity.
    + vm_compute; reflexivity.
    + vm_compute; reflexivity.
    + reflexivity.
    + vm_compute; discriminate.
    + split; vm_compute; discriminate.
    + exists p', db', loan, db''. split; [exact Hpay | exact Hrun].
Defined.

(** X10. [pay_penalty] answers 404 exactly when the penalty is not in the
    store and 400 exactly when it is already paid; a waived penalty is
    accepted and becomes paid.  After an accepted payment every further
    payment of that penalty is refused with 400 and leaves the recorded
    payment as it is. *)
Theorem pay_penalty_terminal today penalty_id payment db :
  ((∃ e, (request (pay_penalty today penalty_id payment) db).1 = inl e
         ∧ is_NotFound e = true)
   ↔ penalties db !! penalty_id = None)
  ∧ ((∃ e, (request (pay_penalty today penalty_id payment) db).1 = inl e
           ∧ is_Conflict e = true)
     ↔ ∃ p, penalties db !! penalty_id = Some p ∧ Penalty.status p = paid)
  ∧ (∀ p, penalties db !! penalty_id = Some p → Penalty.status p = waived →
       ∃ db', request (pay_penalty today penalty_id payment) db
              = (inr (paid_penalty today payment p), db')
              ∧ Penalty.status <$> penalties db' !! penalty_id = Some paid)
  ∧ (∀ p' db',
       request (pay_penalty today penalty_id payment) db = (inr p', db') →
       penalties db' !! penalty_id = Some p'
       ∧ ∀ today2 payment2,
           request (pay_penalty today2 penalty_id payment2) db'
           = (inl (HTTPException 400 "Bu jarima allaqachon to'langan"), db')).
Proof.
  split; [|split; [|split]].
  - unfold request. rewrite pay_penalty_run.
    destruct (penalties db !! penalty_id) as [p|].
    + split; [|discriminate]. intros (e & He & Hk). exfalso.
      case_bool_decide; cbn in He; [injection He as <-|]; discriminate.
    + split; [done|]. intros _. eexists. split; reflexivity.
  - unfold request. rewrite pay_penalty_run.
    destruct (penalties db !! penalty_id) as [p|].
    + case_bool_decide as Hst.
      * split; [eauto|]. intros _. eexists. split; reflexivity.
      * split; [|intros (p0 & [= <-] & Hp); done].
        intros (e & He & Hk). cbn in He. discriminate.
    + split; [|intros (p0 & [=] & _)].
      intros (e & He & Hk). cbn in He. injection He as <-. discriminate.
  - intros p Hp Hw. unfold request. rewrite pay_penalty_run, Hp.
    rewrite bool_decide_eq_false_2 by (rewrite Hw; done).
    eexists. split; [reflexivity|]. cbn. rewrite lookup_alter_eq, Hp. cbn.
    by rewrite paid_penalty_status.
  - intros p' db' Hrun.
    apply pay_penalty_ok in Hrun as (p & Hp & Hst & -> & ->). cbn.
    split; [apply lookup_insert_eq|]. intros today2 payment2.
    unfold request. rewrite pay_penalty_run. cbn. rewrite lookup_insert_eq.
    by rewrite bool_decide_eq_true_2 by apply paid_penalty_status.
Qed.




End Payments.

Section IssueReturn.
Import Utils Eligibility Routes Invariants DateUtils BorrowingQueries Fixtures.

(** X6. An accepted Issue followed by the Return of that loan, on any
    day, goes through and puts every book row back as it was before the
    Issue; of the members only the borrower's row differs, by one more in
    [total_borrowed], with [current_borrowed] as before; the loan is
    [returned] and no other loan is touched. *)
Theorem issue_return_restores_counts today new_id librarian_id borrowing db loan db1
    (Hfresh : borrowings db !! new_id = None)
    (Hissue : request (create_borrowing today new_id librarian_id borrowing) db
              = (inr loan, db1)) :
  ∀ today2 penalty_id return_data,
  ∃ member db2,
    members db !! BorrowingCreate.member_id borrowing = Some member
    ∧ request (return_book today2 penalty_id new_id return_data) db1
      = (inr (returned_loan today2 (BorrowingReturn.notes return_data) loan), db2)
    ∧ books db2 = books db
    ∧ members db2 = <[BorrowingCreate.member_id borrowing :=
                       Member.set_total_borrowed (Member.total_borrowed member + 1) member]>
                    (members db)
    ∧ Borrowing.status <$> borrowings db2 !! new_id = Some returned
    ∧ (∀ k, k ≠ new_id → borrowings db2 !! k = borrowings db !! k).
Proof.
  intros today2 penalty_id return_data.
  destruct (issue_then_return today new_id librarian_id borrowing db loan db1
              today2 penalty_id return_data Hfresh Hissue)
    as (member & db2 & Hm & Hret & Hbooks & Hmem & Hloans & _).
  exists member, db2. repeat (split; [done|]). split.
  - rewrite Hloans, lookup_insert_eq. cbn. by rewrite returned_loan_status.
  - intros k Hk. rewrite Hloans. by apply lookup_insert_ne.
Qed.

Lemma issue_return_restores_counts_witness :
  ∃ db2,
    request (return_book (today0 + 3) "p1" "l1" (BorrowingReturn.mk None)) db_loaned
    = (inr (returned_loan (today0 + 3) None
              (Borrowing.mk "m1" "b1" (Some "lib1") (today0 + 14) None borrowed None)), db2)
    ∧ books db2 = books db_fresh.
Proof.
  destruct (issue_return_restores_counts today0 "l1" "lib1" (borrow_data 14) db_fresh
              (Borrowing.mk "m1" "b1" (Some "lib1") (today0 + 14) None borrowed None)
              db_loaned ltac:(vm_compute; reflexivity) ltac:(vm_compute; reflexivity)
              (today0 + 3) "p1" (BorrowingReturn.mk None))
    as (member & db2 & _ & Hret & Hbooks & _).
  exists db2. split; [exact Hret | exact Hbooks].
Defined.

(** X7. A loan issued for [days] days and returned [kept] days after the
    Issue: its due date is the one [calculate_due_date] gives; the Return
    adds no penalty when kept ≤ days, and when days < kept it adds one
    penalty whose amount is [calculate_late_penalty] of [get_days_late],
    that is 5000 × (kept − days); [is_overdue] on the return day says
    which case holds. *)
Theorem issue_return_penalty_by_day today new_id librarian_id borrowing db loan db1
    kept penalty_id return_data
    (Hfresh : borrowings db !! new_id = None)
    (Hpfresh : penalties db !! penalty_id = None)
    (Hissue : request (create_borrowing today new_id librarian_id borrowing) db
              = (inr loan, db1)) :
  let days := BorrowingCreate.days borrowing in
  let back := today + kept in
  ∃ due loan' db2,
    calculate_due_date today days = Some due
    ∧ Borrowing.due_date loan = due
    ∧ request (return_book back penalty_id new_id return_data) db1 = (inr loan', db2)
    ∧ get_days_late back due None = Z.max 0 (kept - days)
    ∧ (is_overdue back due = true ↔ days < kept)
    ∧ (kept <= days → penalties db2 = penalties db)
    ∧ (days < kept →
       penalties db2
       = <[penalty_id :=
             Penalty.mk (BorrowingCreate.member_id borrowing) (Some new_id)
               (calculate_late_penalty (get_days_late back due None) 5000)
               (late_reason (kept - days)) unpaid None None None]> (penalties db)
       ∧ calculate_late_penalty (get_days_late back due None) 5000
         = (kept - days) * 5000).
Proof.
  intros days back.
  destruct (issue_then_return today new_id librarian_id borrowing db loan db1
              back penalty_id return_data Hfresh Hissue)
    as (member & db2 & Hm & Hret & _ & _ & _ & Hdue & Hpen).
  assert (Hcalc : calculate_due_date today days = Some (today + days)).
  { revert Hissue. unfold request. rewrite create_borrowing_run. cbn zeta.
    unfold calculate_due_date. subst days.
    destruct (books db !! _); [|discriminate]. destruct (_ <=? 0); [discriminate|].
    destruct (members db !! _); [|discriminate]. destruct (negb _); [discriminate|].
    destruct (0 <? _); [discriminate|].
    destruct (timedelta (BorrowingCreate.days borrowing)) as [delta|] eqn:Hd;
      [|discriminate].
    assert (delta = BorrowingCreate.days borrowing) as ->.
    { unfold timedelta in Hd. by destruct (_ <=? _); [injection Hd as <-|]. }
    destruct (date_add today _) as [due|] eqn:Ha; [|discriminate].
    intros _. unfold date_add in *. by destruct (_ && _). }
  eexists (today + days), _, db2. split; [done|]. split; [done|]. split; [exact Hret|].
  unfold get_days_late, is_overdue, calculate_late_penalty. subst back days.
  split; [lia|]. split; [rewrite Z.ltb_lt; lia|].
  rewrite Hpen. split.
  - intros Hk. by destruct (Z.ltb_spec (today + BorrowingCreate.days borrowing)
                              (today + kept)); [lia|].
  - intros Hk. destruct (Z.ltb_spec (today + BorrowingCreate.days borrowing)
                           (today + kept)); [|lia].
    replace (today + kept - (today + BorrowingCreate.days borrowing))
      with (kept - BorrowingCreate.days borrowing) by lia.
    rewrite Z.max_r by lia. done.
Qed.

Lemma issue_return_penalty_by_day_witness :
  ∃ loan' db2,
    request (return_book (today0 + 19) "p1" "l1" (BorrowingReturn.mk None)) db_loaned
    = (inr loan', db2)
    ∧ Penalty.amount <$> penalties db2 !! "p1" = Some 25000.
Proof.
  destruct (issue_return_penalty_by_day today0 "l1" "lib1" (borrow_data 14) db_fresh
              (Borrowing.mk "m1" "b1" (Some "lib1") (today0 + 14) None borrowed None)
              db_loaned 19 "p1" (BorrowingReturn.mk None))
    as (due & loan' & db2 & _ & _ & Hret & _ & _ & _ & Hlate).
  - vm_compute; reflexivity.
  - vm_compute; reflexivity.
  - vm_compute; reflexivity.
  - exists loan', db2. split; [exact Hret|].
    destruct Hlate as [Hpen Hamount]; [vm_compute; reflexivity|].
    rewrite Hpen, lookup_insert_eq. cbn. rewrite Hamount. reflexivity.
Defined.

(** X12. [get_late_borrowings] only reads the store.  It lists exactly
    the loans, with member and book rows in the store, to which
    [get_borrowings] attaches a [days_late], and with the same number,
    which is at least 1; a returned loan is never listed and gets no
    [days_late]. *)
Theorem late_list_agrees today db :
  ∃ rows,
    get_late_borrowings today db = (inr rows, db)
    ∧ (∀ k b d,
         rows !! k = Some (b, d)
         ↔ borrowings db !! k = Some b ∧ joined db (k, b)
           ∧ get_borrowings_days_late today b = Some d)
    ∧ (∀ k b d, rows !! k = Some (b, d) →
         1 <= d ∧ d = today - Borrowing.due_date b ∧ Borrowing.status b ≠ returned)
    ∧ (∀ k b, borrowings db !! k = Some b → Borrowing.status b = returned →
         rows !! k = None ∧ get_borrowings_days_late today b = None).
Proof.
  eexists. split; [reflexivity|].
  assert (Hchar : ∀ k b d,
    ((λ b, (b, today - Borrowing.due_date b))
       <$> filter (late_row db today) (borrowings db)) !! k = Some (b, d)
    ↔ borrowings db !! k = Some b ∧ joined db (k, b)
      ∧ get_borrowings_days_late today b = Some d).
  { intros k b d. rewrite lookup_fmap_Some. unfold get_borrowings_days_late. split.
    - intros (b0 & [= <- <-] & Hf). apply map_lookup_filter_Some in Hf
        as (Hb & Hj & Ho & Hl). cbn in Hj, Ho, Hl.
      split; [done|]. split; [done|].
      rewrite bool_decide_eq_true_2 by done.
      by destruct (Z.ltb_spec (Borrowing.due_date b0) today); [|lia].
    - intros (Hb & Hj & Hd). case_bool_decide as Ho; [|discriminate].
      destruct (Z.ltb_spec (Borrowing.due_date b) today); [|discriminate].
      cbn in Hd. injection Hd as <-. exists b. split; [done|].
      apply map_lookup_filter_Some. repeat split; try done; apply Hj. }
  split; [exact Hchar|]. split.
  - intros k b d Hrow. apply Hchar in Hrow as (Hb & Hj & Hd).
    unfold get_borrowings_days_late in Hd. case_bool_decide as Ho; [|discriminate].
    destruct (Z.ltb_spec (Borrowing.due_date b) today); [|discriminate].
    cbn in Hd. injection Hd as <-. split; [lia|]. split; [done|].
    intros Hr. by apply (returned_not_open b).
  - intros k b Hb Hr.
    assert (Hnone : get_borrowings_days_late today b = None).
    { unfold get_borrowings_days_late.
      by rewrite bool_decide_eq_false_2 by (by apply returned_not_open). }
    split; [|done].
    match goal with |- ?row = None => destruct row as [[b' d]|] eqn:Hrow end; [|done].
    apply Hchar in Hrow as (Hb' & _ & Hd). congruence.
Qed.

(** X13. An accepted Return charges exactly what the late list of that
    day shows: when the loan is listed with [days_late], the one penalty
    added has amount 5000 × days_late; when it is not listed, no penalty
    is added.  After the Return the loan is on no day's late list. *)
Theorem return_charges_late_list today new_id borrow_id return_data db loan db'
    (Hrun : request (return_book today new_id borrow_id return_data) db = (inr loan, db')) :
  ∃ rows b,
    get_late_borrowings today db = (inr rows, db)
    ∧ borrowings db !! borrow_id = Some b
    ∧ match rows !! borrow_id with
      | Some (_, days_late) =>
          penalties db'
          = <[new_id := Penalty.mk (Borrowing.member_id b) (Some borrow_id)
                          (days_late * 5000) (late_reason days_late)
                          unpaid None None None]> (penalties db)
      | None => penalties db' = penalties db
      end
    ∧ (∀ later rows', get_late_borrowings later db' = (inr rows', db') →
         rows' !! borrow_id = None).
Proof.
  apply return_book_ok in Hrun
    as (b & bk & m & Hb & Hst & Hbk & Hm & -> & _ & _ & Hloans & Hpen).
  eexists _, b. split; [reflexivity|]. split; [done|]. split.
  - rewrite lookup_fmap.
    destruct (Z.ltb_spec (Borrowing.due_date b) today) as [Hlate|Hnot].
    + assert (Hf : filter (late_row db today) (borrowings db) !! borrow_id = Some b).
      { apply map_lookup_filter_Some_2; [done|].
        split; [split; cbn; eauto|]. split; [by apply not_returned_open|done]. }
      rewrite Hf. cbn. rewrite Hpen.
      by destruct (Z.ltb_spec (Borrowing.due_date b) today); [|lia].
    + destruct (filter _ _ !! borrow_id) as [b0|] eqn:Hf.
      * apply map_lookup_filter_Some in Hf as (Hb0 & _ & _ & Hl).
        assert (b0 = b) as -> by congruence. cbn in Hl. lia.
      * cbn. rewrite Hpen.
        by destruct (Z.ltb_spec (Borrowing.due_date b) today); [lia|].
  - intros later rows' [= <-]. rewrite lookup_fmap.
    destruct (filter _ _ !! borrow_id) as [b0|] eqn:Hf; [|done].
    apply map_lookup_filter_Some in Hf as (Hb0 & _ & Ho & _). exfalso.
    rewrite Hloans, lookup_insert_eq in Hb0. injection Hb0 as <-.
    revert Ho. apply returned_not_open, returned_loan_status.
Qed.

Lemma return_charges_late_list_witness :
  ∃ rows b,
    get_late_borrowings (today0 + 19) db_loaned = (inr rows, db_loaned)
    ∧ borrowings db_loaned !! "l1" = Some b
    ∧ rows !! "l1" = Some (b, 5).
Proof.
  destruct (return_charges_late_list (today0 + 19) "p1" "l1" (BorrowingReturn.mk None)
              db_loaned
              (Borrowing.mk "m1" "b1" (Some "lib1") (today0 + 14)
                            (Some (today0 + 19)) returned None)
              (request (return_book (today0 + 19) "p1" "l1" (BorrowingReturn.mk None))
                       db_loaned).2)
    as (rows & b & Hrows & Hb & _).
  - vm_compute; reflexivity.
  - exists rows, b. split; [exact Hrows|]. split; [exact Hb|].
    injection Hrows as <-. vm_compute in Hb. injection Hb as <-.
    vm_compute; reflexivity.
Defined.

(** X21. Issue and Return never remove a member row nor change its
    [is_active] flag, and [total_borrowed] never goes down: it grows by
    one exactly for the borrower of an accepted Issue and is otherwise
    unchanged. *)
Theorem total_borrowed_never_decreases db k m (Hrow : members db !! k = Some m) :
  (∀ today new_id librarian_id borrowing outcome db',
     request (create_borrowing today new_id librarian_id borrowing) db = (outcome, db') →
     ∃ m', members db' !! k = Some m'
           ∧ Member.is_active m' = Member.is_active m
           ∧ Member.total_borrowed m <= Member.total_borrowed m' <= Member.total_borrowed m + 1
           ∧ (Member.total_borrowed m' = Member.total_borrowed m + 1
              ↔ (∃ loan, outcome = inr loan) ∧ k = BorrowingCreate.member_id borrowing))
  ∧ (∀ today new_id borrow_id return_data outcome db',
       request (return_book today new_id borrow_id return_data) db = (outcome, db') →
       ∃ m', members db' !! k = Some m'
             ∧ Member.is_active m' = Member.is_active m
             ∧ Member.total_borrowed m' = Member.total_borrowed m).
Proof.
  split.
  - intros today new_id librarian_id borrowing [e|loan] db' Hrun.
    + rewrite (request_failure _ _ _ _ Hrun). exists m.
      split; [done|]. split; [done|]. split; [lia|].
      split; [intros ?; lia | intros [[loan [=]] _]].
    + apply create_borrowing_ok in Hrun
        as (book & member & _ & _ & Hmember & _ & _ & _ & Hmem & _).
      rewrite Hmem.
      destruct (decide (BorrowingCreate.member_id borrowing = k)) as [Heq|Hne].
      * rewrite Heq in *. rewrite lookup_insert_eq.
        assert (member = m) as -> by congruence.
        eexists. split; [done|]. cbn. split; [done|]. split; [lia|].
        split; [eauto|lia].
      * rewrite lookup_insert_ne by done. exists m.
        split; [done|]. split; [done|]. split; [lia|].
        split; [lia|]. intros [_ ->]. done.
  - intros today new_id borrow_id return_data [e|loan] db' Hrun.
    + rewrite (request_failure _ _ _ _ Hrun). by exists m.
    + apply return_book_ok in Hrun
        as (b & bk & m0 & _ & _ & _ & Hm0 & _ & _ & Hmem & _).
      rewrite Hmem.
      destruct (decide (Borrowing.member_id b = k)) as [Heq|Hne].
      * rewrite Heq in *. rewrite lookup_insert_eq.
        assert (m0 = m) as -> by congruence. by eexists.
      * rewrite lookup_insert_ne by done. by exists m.
Qed.

Lemma total_borrowed_never_decreases_witness :
  ∃ m', members db_loaned !! "m1" = Some m' ∧ Member.total_borrowed m' = 0 + 1.
Proof.
  destruct (total_borrowed_never_decreases db_fresh "m1" test_member)
    as [Hissue _]; [vm_compute; reflexivity|].
  destruct (Hissue today0 "l1" "lib1" (borrow_data 14)
              (request (create_borrowing today0 "l1" "lib1" (borrow_data 14)) db_fresh).1
              db_loaned) as (m' & Hm' & _ & _ & Hgrow); [vm_compute; reflexivity|].
  exists m'. split; [exact Hm'|]. apply Hgrow. split; [|reflexivity].
  eexists. vm_compute. reflexivity.
Defined.
End IssueReturn.

Section PenaltyCurves.
Import PyFloat Utils.

(** X14. Up to 14411518807598 days the progressive penalty is never
    negative and never decreases with the lateness, as floats and as the
    amounts they hold; from a non-negative lateness on, each further day
    adds the rate of its tier, so between 3000 and 10000 per day. *)
Theorem progressive_penalty_monotone (a b : Z)
    (Hle : a <= b) (Hbound : b <= 14411518807598) :
  ∃ fa fb va vb,
    calculate_progressive_penalty a = inr fa
    ∧ calculate_progressive_penalty b = inr fb
    ∧ float_value fa = Some va ∧ float_value fb = Some vb
    ∧ (fa <=? fb)%float = true
    ∧ 0 <= va <= vb
    ∧ (0 <= a → va + 3000 * (b - a) <= vb <= va + 10000 * (b - a))
    ∧ (0 <= a → a < b →
       ∃ f1, calculate_progressive_penalty (a + 1) = inr f1
             ∧ float_value f1 = Some (va + tier_rate (a + 1))).
Proof.
  destruct (progressive_exact a) as (fa & Ha & Hfa); [lia|].
  destruct (progressive_exact b) as (fb & Hb & Hfb); [lia|].
  exists fa, fb, (tier_total (Z.max a 0)), (tier_total (Z.max b 0)).
  split; [done|]. split; [done|].
  split; [by apply float_holds_value|]. split; [by apply float_holds_value|].
  split.
  { rewrite (proj1 (float_holds_compare _ _ _ _ Hfa Hfb)). apply Z.leb_le.
    unfold tier_total. lia. }
  split; [unfold tier_total; lia|]. split; [unfold tier_total; lia|].
  intros H0 Hlt. destruct (progressive_exact (a + 1)) as (f1 & H1 & Hf1); [lia|].
  exists f1. split; [done|]. rewrite (float_holds_value _ _ Hf1). f_equal.
  unfold tier_total, tier_rate.
  repeat match goal with
         | |- context [?x <=? ?y] => destruct (Z.leb_spec x y)
         end; lia.
Qed.

Lemma progressive_penalty_monotone_witness :
  ∃ fa fb, calculate_progressive_penalty 10 = inr fa
           ∧ calculate_progressive_penalty 40 = inr fb
           ∧ (fa <=? fb)%float = true.
Proof.
  destruct (progressive_penalty_monotone 10 40) as (fa & fb & _ & _ & Ha & Hb & _ & _ & Hc & _);
    [lia..|].
  by exists fa, fb.
Defined.

(** X15. Up to 14411518807598 days, against the flat rate of 5000 per
    day, the progressive penalty is lower exactly for 1 to 20 days of
    lateness, equal exactly at 0 and at 21 days, and higher from 22 days
    on (and for a negative number of days, where the flat formula goes
    negative and the progressive one stays 0). *)
Theorem progressive_flat_break_even (d : Z) (Hbound : d <= 14411518807598) :
  ∃ f v,
    calculate_progressive_penalty d = inr f ∧ float_value f = Some v
    ∧ (v < calculate_late_penalty d 5000 ↔ 1 <= d <= 20)
    ∧ (v = calculate_late_penalty d 5000 ↔ d = 0 ∨ d = 21)
    ∧ (calculate_late_penalty d 5000 < v ↔ d < 0 ∨ 22 <= d).
Proof.
  destruct (progressive_exact d Hbound) as (f & Hrun & Hf).
  exists f, (tier_total (Z.max d 0)). split; [done|].
  split; [by apply float_holds_value|].
  unfold tier_total, calculate_late_penalty. lia.
Qed.

Lemma progressive_flat_break_even_witness :
  ∃ f, calculate_progressive_penalty 21 = inr f
       ∧ float_value f = Some (calculate_late_penalty 21 5000).
Proof.
  destruct (progressive_flat_break_even 21) as (f & v & Hrun & Hv & _ & Heq & _); [lia|].
  exists f. split; [done|]. rewrite Hv. f_equal. apply Heq. by right.
Defined.

End PenaltyCurves.

Section Pages.
Import Pagination.
Context {A : Type}.

Lemma first_pages_take (query : list A) (per_page : Z) (n : nat) :
  1 <= per_page →
  first_pages query per_page n = take (n * Z.to_nat per_page) query.
Proof.
  intros Hpp. induction n as [|k IH]; [done|].
  cbn [first_pages]. rewrite IH. unfold paginate.
  destruct (Z.eqb_spec per_page 0) as [|Hpp0]; [lia|]. cbn [items].
  replace (Z.to_nat ((Z.of_nat (S k) - 1) * per_page)) with (k * Z.to_nat per_page)%nat
    by nia.
  rewrite take_take_drop. f_equal. lia.
Qed.

(** X16. For a page size of at least 1, the pages 1 to [pages] that
    [paginate] reports, put one after the other, are the whole query
    result, each row once and in order; any shorter run of pages is full
    pages only and misses some row. *)
Theorem paginate_covers (query : list A) (per_page : Z) (Hpp : 1 <= per_page) :
  ∃ p, paginate query 1 per_page = Some p
       ∧ total p = Z.of_nat (length query)
       ∧ first_pages query per_page (Z.to_nat (pages p)) = query
       ∧ (∀ n, (n < Z.to_nat (pages p))%nat →
              length (first_pages query per_page n) = (n * Z.to_nat per_page)%nat
              ∧ (length (first_pages query per_page n) < length query)%nat).
Proof.
  unfold paginate. destruct (Z.eqb_spec per_page 0) as [|Hpp0]; [lia|].
  eexists. split; [reflexivity|]. cbn [total pages].
  set (total := Z.of_nat (length query)).
  assert (Hpages : (Z.to_nat ((total + per_page - 1) `div` per_page) * Z.to_nat per_page
                    >= length query)%nat
                   ∧ ∀ n, (n < Z.to_nat ((total + per_page - 1) `div` per_page))%nat →
                          (n * Z.to_nat per_page < length query)%nat).
  { assert (Hdiv := Z.div_mod (total + per_page - 1) per_page ltac:(lia)).
    assert (Hmod := Z.mod_pos_bound (total + per_page - 1) per_page ltac:(lia)).
    assert (0 <= (total + per_page - 1) `div` per_page)
      by (apply Z.div_pos; lia).
    split; [nia|]. intros n Hn. nia. }
  destruct Hpages as [Hall Hbefore].
  split; [done|]. split.
  - rewrite first_pages_take by done. apply take_ge. lia.
  - intros n Hn. rewrite first_pages_take by done. specialize (Hbefore n Hn).
    rewrite length_take. lia.
Qed.

(** X17. For a page number and a page size of at least 1, [paginate]
    reports as [pages] the least number of pages that holds all rows (0
    exactly for an empty result); every page before the last has exactly
    [per_page] items, the last page has between 1 and [per_page], and a
    page beyond the last is empty. *)
Theorem paginate_page_sizes (query : list A) (page per_page : Z)
    (Hpage : 1 <= page) (Hpp : 1 <= per_page) :
  ∃ p, paginate query page per_page = Some p
       ∧ pages p = (Z.of_nat (length query) + per_page - 1) `div` per_page
       ∧ Z.of_nat (length query) <= pages p * per_page
       ∧ (query ≠ [] → 1 <= pages p ∧ (pages p - 1) * per_page < Z.of_nat (length query))
       ∧ (pages p = 0 ↔ query = [])
       ∧ (page < pages p → Z.of_nat (length (items p)) = per_page)
       ∧ (page = pages p →
          1 <= Z.of_nat (length (items p)) <= per_page
          ∧ Z.of_nat (length (items p))
            = Z.of_nat (length query) - (page - 1) * per_page)
       ∧ (pages p < page → items p = []).
Proof.
  unfold paginate. destruct (Z.eqb_spec per_page 0) as [|Hpp0]; [lia|].
  eexists. split; [reflexivity|]. cbn [pages items].
  set (total := Z.of_nat (length query)).
  assert (Hdiv := Z.div_mod (total + per_page - 1) per_page ltac:(lia)).
  assert (Hmod := Z.mod_pos_bound (total + per_page - 1) per_page ltac:(lia)).
  assert (Hnn : 0 <= (total + per_page - 1) `div` per_page) by (apply Z.div_pos; lia).
  set (np := (total + per_page - 1) `div` per_page) in *.
  assert (Hlen : length (take (Z.to_nat per_page)
                              (drop (Z.to_nat ((page - 1) * per_page)) query))
                 = Nat.min (Z.to_nat per_page)
                           (length query - Z.to_nat ((page - 1) * per_page)))
    by (by rewrite length_take, length_drop).
  split; [done|]. split; [nia|]. split.
  { intros Hq. assert (0 < total) by (subst total; destruct query; [done|cbn; lia]). nia. }
  split.
  { split.
    - intros Hz. apply length_zero_iff_nil. nia.
    - intros ->. cbn in total. subst total np.
      apply Z.div_small. lia. }
  split; [intros Hlt; rewrite Hlen; nia|].
  split; [intros ->; rewrite Hlen; nia|].
  intros Hgt. apply length_zero_iff_nil. rewrite Hlen. nia.
Qed.

End Pages.

Section PagesExample.
Import Pagination.

Lemma paginate_covers_witness :
  first_pages [10; 20; 30; 40; 50] 2 3 = [10; 20; 30; 40; 50].
Proof.
  destruct (paginate_covers [10; 20; 30; 40; 50] 2) as (p & Hp & _ & Hall & _); [lia|].
  injection Hp as <-. exact Hall.
Defined.

Lemma paginate_page_sizes_witness :
  ∃ p, paginate [10; 20; 30; 40; 50] 3 2 = Some p ∧ pages p = 3 ∧ items p = [50].
Proof.
  destruct (paginate_page_sizes [10; 20; 30; 40; 50] 3 2) as (p & Hp & Hn & _);
    [lia | lia |].
  exists p. split; [exact Hp|]. split; [exact Hn|].
  injection Hp as <-. reflexivity.
Defined.
End PagesExample.

Section Strings.
Import Validation Formatting.

Lemma remove_char_app c (a b : string) :
  remove_char c (a +:+ b) = remove_char c a +:+ remove_char c b.
Proof.
  induction a as [|x a IH]; [done|]. simpl. rewrite IH. by destruct (Ascii.eqb x c).
Qed.

Lemma all_isdigit_app (a b : string) :
  all_isdigit (a +:+ b) = all_isdigit a && all_isdigit b.
Proof.
  induction a as [|x a IH]; [done|]. simpl. rewrite IH. by rewrite andb_assoc.
Qed.

Lemma isdigit_all (s : string) : isdigit s = true → all_isdigit s = true.
Proof. by destruct s. Qed.

Lemma char_isdigit_not_separator c :
  char_isdigit c = true → Ascii.eqb c "-" = false ∧ Ascii.eqb c " " = false.
Proof.
  destruct c as [[] [] [] [] [] [] [] []]; try discriminate; by split.
Qed.

Lemma remove_char_digits c (s : string) :
  (∀ x, char_isdigit x = true → Ascii.eqb x c = false) →
  all_isdigit s = true → remove_char c s = s.
Proof.
  intros Hc. induction s as [|x s IH]; [done|].
  cbn [all_isdigit remove_char]. intros [Hx Hs]%andb_true_iff.
  by rewrite (Hc x Hx), IH.
Qed.

Lemma string_length_app (a b : string) :
  String.length (a +:+ b) = (String.length a + String.length b)%nat.
Proof. induction a as [|x a IH]; [done|]. simpl. by rewrite IH. Qed.

(** X18. [validate_isbn] looks through hyphens and spaces: one more or
    one less of them, anywhere, never changes the answer.  Any other
    character that is not a digit makes it answer False (so an ISBN-10
    ending in X is refused).  A string is accepted exactly when, the
    separators apart, it has 10 or 13 characters, all digits; no check
    digit is computed: nine or twelve digits followed by any digit
    whatever are accepted. *)
Theorem validate_isbn_separators (a b : string) :
  validate_isbn (a +:+ "-" +:+ b) = validate_isbn (a +:+ b)
  ∧ validate_isbn (a +:+ " " +:+ b) = validate_isbn (a +:+ b)
  ∧ (∀ c, char_isdigit c = false → c ≠ "-"%char → c ≠ " "%char →
          validate_isbn (a +:+ String c b) = false)
  ∧ (validate_isbn a = true
     ↔ all_isdigit (remove_char " " (remove_char "-" a)) = true
       ∧ (String.length (remove_char " " (remove_char "-" a)) = 10%nat
          ∨ String.length (remove_char " " (remove_char "-" a)) = 13%nat))
  ∧ (all_isdigit a = true → String.length a = 9%nat ∨ String.length a = 12%nat →
     ∀ c, char_isdigit c = true → validate_isbn (a +:+ String c EmptyString) = true).
Proof.
  assert (Hiff : ∀ s, validate_isbn s = true
     ↔ all_isdigit (remove_char " " (remove_char "-" s)) = true
       ∧ (String.length (remove_char " " (remove_char "-" s)) = 10%nat
          ∨ String.length (remove_char " " (remove_char "-" s)) = 13%nat)).
  { intros s. unfold validate_isbn. rewrite andb_true_iff, orb_true_iff, !Nat.eqb_eq.
    split.
    - intros [Hlen Hd]. split; [by apply isdigit_all|done].
    - intros [Hd Hlen]. split; [done|].
      destruct (remove_char " " (remove_char "-" s)); [|done].
      by destruct Hlen. }
  split; [|split; [|split; [|split]]].
  - unfold validate_isbn. by rewrite !remove_char_app.
  - unfold validate_isbn. by rewrite !remove_char_app.
  - intros c Hc Hh Hs. unfold validate_isbn. apply andb_false_iff. right.
    change (String c b) with (String c EmptyString +:+ b).
    rewrite !remove_char_app. cbn [remove_char].
    rewrite (proj2 (Ascii.eqb_neq c "-")) by done. cbn [remove_char].
    rewrite (proj2 (Ascii.eqb_neq c " ")) by done.
    destruct (isdigit _) eqn:Hd; [|done]. apply isdigit_all in Hd.
    rewrite !all_isdigit_app in Hd. cbn in Hd. rewrite Hc in Hd.
    cbn in Hd. by rewrite andb_false_r in Hd.
  - apply Hiff.
  - intros Ha Hlen c Hc. apply Hiff.
    assert (Hall : all_isdigit (a +:+ String c EmptyString) = true)
      by (rewrite all_isdigit_app, Ha; cbn; by rewrite Hc).
    rewrite (remove_char_digits "-" _) by
      (done || intros x Hx; by apply char_isdigit_not_separator).
    rewrite (remove_char_digits " " _) by
      (done || intros x Hx; by apply char_isdigit_not_separator).
    split; [done|]. rewrite string_length_app. cbn. lia.
Qed.

Lemma digit_not_plus c : ascii_digit c = true → Ascii.eqb "+" c = false.
Proof.
  destruct c as [[] [] [] [] [] [] [] []]; try discriminate; reflexivity.
Qed.

Lemma digit_not_space c : ascii_digit c = true → Ascii.eqb c " " = false.
Proof.
  destruct c as [[] [] [] [] [] [] [] []]; try discriminate; reflexivity.
Qed.

Lemma strip_prefix_app (p s : string) : strip_prefix p (p +:+ s) = Some s.
Proof.
  induction p as [|a p IH]; [done|]. simpl. by rewrite Ascii.eqb_refl.
Qed.


Lemma remove_char_cons_ne c x (s : string) :
  Ascii.eqb x c = false → remove_char c (String x s) = String x (remove_char c s).
Proof. intros H. simpl. by rewrite H. Qed.

Lemma remove_char_cons_eq c (s : string) :
  remove_char c (String c s) = remove_char c s.
Proof. simpl. by rewrite Ascii.eqb_refl. Qed.

(** X19. For nine digits d, both d and +998 followed by d are valid
    phones, and [format_phone] gives the same text for both: +998 and the
    digits in groups of 2, 3, 2 and 2, seventeen characters in all.
    Taking the spaces out of it gives +998 followed by d, which is valid
    and formats to the same text again. *)
Theorem phone_format_round_trip (d : string)
    (Hdigits : digits_then_end 9 d = true) (Hlen : String.length d = 9%nat) :
  validate_phone d = true
  ∧ validate_phone ("+998" +:+ d) = true
  ∧ format_phone ("+998" +:+ d) = format_phone d
  ∧ format_phone d
    = "+998 " +:+ slice 0 2 d +:+ " " +:+ slice 2 5 d +:+ " " +:+ slice 5 7 d
      +:+ " " +:+ slice 7 9 d
  ∧ String.length (format_phone d) = 17%nat
  ∧ remove_char " " (format_phone d) = "+998" +:+ d
  ∧ validate_phone (remove_char " " (format_phone d)) = true
  ∧ format_phone (remove_char " " (format_phone d)) = format_phone d.
Proof.
  do 9 (destruct d as [|? d]; [discriminate|]).
  destruct d; [|discriminate]. clear Hlen.
  cbn -[Ascii.eqb ascii_digit] in Hdigits.
  repeat match goal with
         | H : _ && _ = true |- _ => apply andb_true_iff in H as [? H]
         end.
  assert (Hv : validate_phone
                 (String a (String a0 (String a1 (String a2 (String a3
                   (String a4 (String a5 (String a6 (String a7 EmptyString)))))))))
               = true).
  { unfold validate_phone. cbn -[Ascii.eqb ascii_digit]. rewrite (digit_not_plus a) by done.
    cbn -[Ascii.eqb ascii_digit]. by repeat match goal with H : ascii_digit _ = true |- _ => rewrite H; clear H end. }
  assert (Hv' : validate_phone
                  ("+998" +:+ String a (String a0 (String a1 (String a2 (String a3
                   (String a4 (String a5 (String a6 (String a7 EmptyString)))))))))
                = true).
  { unfold validate_phone. rewrite strip_prefix_app. cbn -[Ascii.eqb ascii_digit].
    by repeat match goal with H : ascii_digit _ = true |- _ => rewrite H; clear H end. }
  assert (Hf : format_phone
                 ("+998" +:+ String a (String a0 (String a1 (String a2 (String a3
                   (String a4 (String a5 (String a6 (String a7 EmptyString)))))))))
               = format_phone
                   (String a (String a0 (String a1 (String a2 (String a3
                     (String a4 (String a5 (String a6 (String a7 EmptyString)))))))))).
  { unfold format_phone. rewrite strip_prefix_app. cbn -[Ascii.eqb ascii_digit].
    by rewrite (digit_not_plus a) by done. }
  assert (Hr : remove_char " " (format_phone
                 (String a (String a0 (String a1 (String a2 (String a3
                   (String a4 (String a5 (String a6 (String a7 EmptyString))))))))))
               = "+998" +:+ String a (String a0 (String a1 (String a2 (String a3
                   (String a4 (String a5 (String a6 (String a7 EmptyString))))))))).
  { unfold format_phone. cbn -[Ascii.eqb ascii_digit remove_char].
    rewrite (digit_not_plus a) by done. cbn -[Ascii.eqb ascii_digit remove_char].
    rewrite !remove_char_app.
    change (remove_char " " "+998 ") with "+998".
    change (remove_char " " " ") with EmptyString.
    rewrite !remove_char_cons_ne by (by apply digit_not_space).
    reflexivity. }
  split; [done|]. split; [done|]. split; [done|].
  split; [unfold format_phone; cbn -[Ascii.eqb ascii_digit]; by rewrite (digit_not_plus a) by done|].
  split; [unfold format_phone; cbn -[Ascii.eqb ascii_digit]; by rewrite (digit_not_plus a) by done|].
  split; [done|]. rewrite Hr. split; [done|]. exact Hf.
Qed.

Lemma phone_format_round_trip_witness :
  validate_phone "901234567" = true
  ∧ format_phone "+998901234567" = "+998 90 123 45 67"
  ∧ format_phone "901234567" = "+998 90 123 45 67".
Proof.
  destruct (phone_format_round_trip "901234567") as (Hv & _ & Hsame & Hfmt & _);
    [reflexivity | reflexivity |].
  split; [exact Hv|]. split.
  - change (format_phone "+998901234567")
      with (format_phone ("+998" +:+ "901234567")).
    rewrite Hsame, Hfmt. reflexivity.
  - rewrite Hfmt. reflexivity.
Defined.



End Strings.
